(** * Upstream-address policy of the ext-proc server

    A shallow embedding of [pkg/ext-proc/server.go]: the attribute extractor
    [extractUpstreamIP], the address classifier [isUpstreamIPSafe] and the
    stream session [Process], together with the parts of Go's [strings],
    [net/netip] and [net] packages that the classifier calls.

    Go strings are byte sequences, so a Go [string] is a Rocq [string] (a list
    of 8-bit characters); a Go [byte] is a [Z] in [0, 256); a nil slice, nil
    map or nil pointer is [None]. *)

From Stdlib Require Import ZArith String Ascii List Bool Lia.
From stdpp Require Import gmap strings list.

Local Open Scope string_scope.
Local Open Scope Z_scope.
Local Open Scope list_scope.

(** ** Bytes *)

Definition byte_of (c : ascii) : Z := Z.of_N (N_of_ascii c).

(** Go's conversions [uint8(x)] / [byte(x)] of a non-negative integer. *)
Definition uint8 (x : Z) : Z := x mod 256.

(** [lo <= c && c <= hi] on bytes. *)
Definition between (lo hi c : ascii) : bool :=
  (byte_of lo <=? byte_of c) && (byte_of c <=? byte_of hi).

Definition isEmpty (s : string) : bool :=
  match s with EmptyString => true | String _ _ => false end.

(** [x == nil] for a slice, map or pointer. *)
Definition isNil {A} (x : option A) : bool :=
  match x with None => true | Some _ => false end.

(** Names the four elements of a list [l], given [Hlen : length l = 4]. *)
Ltac four_elements Hlen l :=
  destruct l as [|? [|? [|? [|? [|]]]]]; try discriminate Hlen; clear Hlen.

(** ** Package [strings] *)

(** [strings.HasPrefix(s, prefix)]. *)
Fixpoint HasPrefix (s prefix : string) {struct prefix} : bool :=
  match prefix, s with
  | EmptyString, _ => true
  | String _ _, EmptyString => false
  | String p prefix', String c s' => Ascii.eqb c p && HasPrefix s' prefix'
  end.

(** [s[n:]]. *)
Fixpoint skipn_string (n : nat) (s : string) : string :=
  match n, s with
  | O, _ => s
  | S _, EmptyString => EmptyString
  | S n', String _ s' => skipn_string n' s'
  end.

(** [strings.TrimPrefix(s, prefix)]: [s] without the leading [prefix], or [s]
    itself when it does not start with [prefix]. *)
Definition TrimPrefix (s prefix : string) : string :=
  if HasPrefix s prefix then skipn_string (String.length prefix) s else s.

(** [strings.Contains(s, substr)]. *)
Fixpoint Contains (s substr : string) : bool :=
  HasPrefix s substr ||
  match s with
  | EmptyString => false
  | String _ s' => Contains s' substr
  end.

(** [strings.Split(s, sep)] for a non-empty [sep]: the fields between the
    leftmost non-overlapping occurrences of [sep].  [cur] holds, reversed, the
    bytes of the field being read and [skip] counts the bytes of a matched
    separator still to be passed over. *)
Fixpoint Split_loop (s sep : string) (skip : nat) (cur : list ascii) : list string :=
  match s with
  | EmptyString => [string_of_list_ascii (rev cur)]
  | String c s' =>
      match skip with
      | S k => Split_loop s' sep k cur
      | O =>
          if HasPrefix s sep
          then string_of_list_ascii (rev cur) :: Split_loop s' sep (String.length sep - 1) []
          else Split_loop s' sep O (c :: cur)
      end
  end.

(** With an empty separator Go splits after every UTF-8 sequence; the server
    only ever splits on [":"]. *)
Definition Split (s sep : string) : list string :=
  if isEmpty sep
  then (fun c => String c EmptyString) <$> list_ascii_of_string s
  else Split_loop s sep O [].

(** ** Package [net/netip]: [ParseAddr] (Go 1.22) *)

Module netip.

(** An address is IPv4 (built by [AddrFrom4]) or IPv6 with a zone (built by
    [AddrFrom16(..).WithZone(zone)]). *)
Inductive Addr :=
| AddrFrom4 (a : list Z)
| AddrFrom16 (a : list Z) (zone : string).

Definition v4InV6Prefix : list Z := [0; 0; 0; 0; 0; 0; 0; 0; 0; 0; 255; 255].

Definition As16 (ip : Addr) : list Z :=
  match ip with
  | AddrFrom4 a => v4InV6Prefix ++ a
  | AddrFrom16 a _ => a
  end.

Definition Zone (ip : Addr) : string :=
  match ip with
  | AddrFrom4 _ => ""
  | AddrFrom16 _ zone => zone
  end.

Definition BitLen (ip : Addr) : Z :=
  match ip with
  | AddrFrom4 _ => 32
  | AddrFrom16 _ _ => 128
  end.

(** The loop of [parseIPv4Fields] over [s = in[off:end]].  [i] is the index
    of the byte [c] being read, [prev] is [s[i-1]] (read only when [i != 0]),
    and [i == len(s)-1] holds exactly when nothing follows [c]. *)
Fixpoint parseIPv4Fields_loop (s : string) (i : Z) (prev : ascii)
    (val : Z) (pos : nat) (digLen : Z) (fields : list Z) : option (list Z) :=
  match s with
  | EmptyString =>
      if (pos <? 3)%nat then None (* IPv4 address too short *)
      else Some (<[3%nat := uint8 val]> fields)
  | String c rest =>
      if between "0" "9" c then
        if (digLen =? 1) && (val =? 0) then None (* octet with leading zero *)
        else
          let val := val * 10 + byte_of c - byte_of "0" in
          if 255 <? val then None (* value >255 *)
          else parseIPv4Fields_loop rest (i + 1) c val pos (digLen + 1) fields
      else if Ascii.eqb c "." then
        if (i =? 0) || isEmpty rest || Ascii.eqb prev "."
        then None (* field must have at least one digit *)
        else if (pos =? 3)%nat then None (* IPv4 address too long *)
        else parseIPv4Fields_loop rest (i + 1) c 0 (S pos) 0 (<[pos := uint8 val]> fields)
      else None (* unexpected character *)
  end.

(** [parseIPv4Fields(in, off, end, fields)], given the text [in[off:end]] and
    the current content of [fields]; the result is the content of [fields]
    after a successful parse. *)
Definition parseIPv4Fields (s : string) (fields : list Z) : option (list Z) :=
  parseIPv4Fields_loop s 0 "000" 0 0%nat 0 fields.

Definition parseIPv4 (s : string) : option Addr :=
  match parseIPv4Fields s [0; 0; 0; 0] with
  | Some fields => Some (AddrFrom4 fields)
  | None => None
  end.

(** Value of a hexadecimal digit, [None] for any other byte. *)
Definition hexDigit (c : ascii) : option Z :=
  if between "0" "9" c then Some (byte_of c - byte_of "0")
  else if between "a" "f" c then Some (byte_of c - byte_of "a" + 10)
  else if between "A" "F" c then Some (byte_of c - byte_of "A" + 10)
  else None.

(** The inner loop of [parseIPv6] reading one group of hex digits: returns
    [off], [acc] (a uint32) and [s[off:]], or [None] where the Go code
    returns an error. *)
Fixpoint hexGroup_loop (s : string) (off : Z) (acc : Z) : option (Z * Z * string) :=
  match s with
  | EmptyString => Some (off, acc, s)
  | String c rest =>
      match hexDigit c with
      | None => Some (off, acc, s)
      | Some d =>
          let acc := (Z.shiftl acc 4 + d) mod 2 ^ 32 in
          if 3 <? off then None (* more than 4 digits in group *)
          else if 65535 <? acc then None (* field has value >=2^16 *)
          else hexGroup_loop rest (off + 1) acc
      end
  end.

(** [ip[i:i+4] = fields]. *)
Definition write4 (ip : list Z) (i : Z) (fields : list Z) : list Z :=
  take (Z.to_nat i) ip ++ fields ++ drop (Z.to_nat i + 4) ip.

(** One turn of the outer loop [for i < 16] of [parseIPv6], entered with
    [i < 16]; [continue] stands for the next turn.  The result is the state
    [(i, ellipsis, ip, s)] when the loop is left, [None] on an error return. *)
Definition parseIPv6_turn (continue : Z -> Z -> list Z -> string -> option (Z * Z * list Z * string))
    (i : Z) (ellipsis : Z) (ip : list Z) (s : string)
    : option (Z * Z * list Z * string) :=
  match hexGroup_loop s 0 0 with
  | None => None
  | Some (off, acc, rest) =>
      if off =? 0 then None (* field must have at least one digit *)
      else if HasPrefix rest "." then
        (* trailing IPv4 *)
        if (ellipsis <? 0) && negb (i =? 12) then None
        else if 16 <? i + 4 then None
        else
          match parseIPv4Fields s (take 4 (drop (Z.to_nat i) ip)) with
          | None => None
          | Some fields => Some (i + 4, ellipsis, write4 ip i fields, "")
          end
      else
        let ip := <[Z.to_nat (i + 1) := uint8 acc]>
                    (<[Z.to_nat i := uint8 (Z.shiftr acc 8)]> ip) in
        let i := i + 2 in
        match rest with
        | EmptyString => Some (i, ellipsis, ip, rest)
        | String c s1 =>
            if negb (Ascii.eqb c ":") then None (* want colon *)
            else
              match s1 with
              | EmptyString => None (* colon must be followed by more *)
              | String c1 s2 =>
                  if Ascii.eqb c1 ":" then
                    if 0 <=? ellipsis then None (* multiple :: *)
                    else if isEmpty s2 then Some (i, i, ip, s2)
                    else continue i i ip s2
                  else continue i ellipsis ip s1
              end
        end
  end.

(** The loop itself.  Every turn adds 2 to [i], so that from [i = 0] the
    8 turns of [turns] are never used up. *)
Fixpoint parseIPv6_loop (turns : nat) (i : Z) (ellipsis : Z) (ip : list Z) (s : string)
    : option (Z * Z * list Z * string) :=
  if 16 <=? i then Some (i, ellipsis, ip, s)
  else
    match turns with
    | O => None
    | S turns => parseIPv6_turn (parseIPv6_loop turns) i ellipsis ip s
    end.

(** [for j := i - 1; j >= ellipsis; j-- { ip[j+n] = ip[j] }]. *)
Definition shiftTail (ip : list Z) (i ellipsis n : Z) : list Z :=
  foldl (fun ip j => <[(j + Z.to_nat n)%nat := ip !!! j]> ip) ip
        (rev (seq (Z.to_nat ellipsis) (Z.to_nat (i - ellipsis)))).

(** [clear(ip[from:to])]. *)
Definition clear (ip : list Z) (from to : Z) : list Z :=
  foldl (fun ip k => <[k := 0]> ip) ip (seq (Z.to_nat from) (Z.to_nat (to - from))).

(** [s[:i], s[i+1:]] for the first index [i] of byte [c], if any. *)
Fixpoint cutByte (s : string) (c : ascii) : option (string * string) :=
  match s with
  | EmptyString => None
  | String x s' =>
      if Ascii.eqb x c then Some (EmptyString, s')
      else match cutByte s' c with
           | Some (l, r) => Some (String x l, r)
           | None => None
           end
  end.

Definition zeros16 : list Z := replicate 16 0.

Definition parseIPv6 (input : string) : option Addr :=
  (* split off the zone *)
  let sz := match cutByte input "%" with
            | Some (s, zone) => if isEmpty zone then None else Some (s, zone)
            | None => Some (input, "")
            end in
  match sz with
  | None => None (* zone must be a non-empty string *)
  | Some (s, zone) =>
      let lead := HasPrefix s "::" in
      let ellipsis := if lead then 0 else -1 in
      let s := if lead then skipn_string 2 s else s in
      if lead && isEmpty s then Some (AddrFrom16 zeros16 zone)
      else
        match parseIPv6_loop 8 0 ellipsis zeros16 s with
        | None => None
        | Some (i, ellipsis, ip, s) =>
            if negb (isEmpty s) then None (* trailing garbage *)
            else if i <? 16 then
              if ellipsis <? 0 then None (* address string too short *)
              else
                let n := 16 - i in
                let ip := shiftTail ip i ellipsis n in
                Some (AddrFrom16 (clear ip ellipsis (ellipsis + n)) zone)
            else if 0 <=? ellipsis then None (* :: must expand to a field *)
            else Some (AddrFrom16 ip zone)
        end
  end.

(** [ParseAddr]: the first ['.'], [':'] or ['%'] decides the parser. *)
Fixpoint ParseAddr_scan (s rest : string) : option Addr :=
  match rest with
  | EmptyString => None (* unable to parse IP *)
  | String c rest' =>
      if Ascii.eqb c "." then parseIPv4 s
      else if Ascii.eqb c ":" then parseIPv6 s
      else if Ascii.eqb c "%" then None (* missing IPv6 address *)
      else ParseAddr_scan s rest'
  end.

Definition ParseAddr (s : string) : option Addr := ParseAddr_scan s s.

End netip.

(** ** Package [net]: the [IP] type and its predicates *)

Module net.

(** [type IP []byte]; [None] below stands for a nil [IP]. *)
Definition IP := list Z.
Definition IPMask := list Z.

Definition IPv4len : nat := 4.
Definition IPv6len : nat := 16.

(** [net.ParseIP]: [netip.ParseAddr] without a zone, as 16 bytes. *)
Definition ParseIP (s : string) : option IP :=
  match netip.ParseAddr s with
  | Some addr => if isEmpty (netip.Zone addr) then Some (netip.As16 addr) else None
  | None => None
  end.

(** [IPv4(a, b, c, d)]: the 16-byte form of an IPv4 address. *)
Definition IPv4 (a b c d : Z) : IP := netip.v4InV6Prefix ++ [a; b; c; d].

Definition IPv4zero : IP := IPv4 0 0 0 0.
Definition IPv6unspecified : IP := [0; 0; 0; 0; 0; 0; 0; 0; 0; 0; 0; 0; 0; 0; 0; 0].
Definition IPv6loopback : IP := [0; 0; 0; 0; 0; 0; 0; 0; 0; 0; 0; 0; 0; 0; 0; 1].

Definition isZeros (p : list Z) : bool := forallb (fun b => b =? 0) p.
Definition allFF (p : list Z) : bool := forallb (fun b => b =? 255) p.

(** [bytealg.Equal]. *)
Definition bytesEqual (a b : list Z) : bool := bool_decide (a = b).

(** [ip.To4()]: the 4-byte form of an IPv4 address, also when it is held as
    an IPv4-mapped IPv6 address; nil for any other address. *)
Definition To4 (ip : IP) : option IP :=
  if (length ip =? IPv4len)%nat then Some ip
  else if (length ip =? IPv6len)%nat && isZeros (take 10 ip)
          && (ip !!! 10%nat =? 255) && (ip !!! 11%nat =? 255)
  then Some (take 4 (drop 12 ip))
  else None.

Definition To16 (ip : IP) : option IP :=
  if (length ip =? IPv4len)%nat
  then Some (IPv4 (ip !!! 0%nat) (ip !!! 1%nat) (ip !!! 2%nat) (ip !!! 3%nat))
  else if (length ip =? IPv6len)%nat then Some ip
  else None.

Definition Equal (ip x : IP) : bool :=
  if (length ip =? length x)%nat then bytesEqual ip x
  else if (length ip =? IPv4len)%nat && (length x =? IPv6len)%nat
  then bytesEqual (take 12 x) netip.v4InV6Prefix && bytesEqual ip (drop 12 x)
  else if (length ip =? IPv6len)%nat && (length x =? IPv4len)%nat
  then bytesEqual (take 12 ip) netip.v4InV6Prefix && bytesEqual (drop 12 ip) x
  else false.

Definition IsUnspecified (ip : IP) : bool :=
  Equal ip IPv4zero || Equal ip IPv6unspecified.

Definition IsLoopback (ip : IP) : bool :=
  match To4 ip with
  | Some ip4 => ip4 !!! 0%nat =? 127
  | None => Equal ip IPv6loopback
  end.

Definition IsPrivate (ip : IP) : bool :=
  match To4 ip with
  | Some ip4 =>
      (ip4 !!! 0%nat =? 10)
      || ((ip4 !!! 0%nat =? 172) && (Z.land (ip4 !!! 1%nat) 240 =? 16))
      || ((ip4 !!! 0%nat =? 192) && (ip4 !!! 1%nat =? 168))
  | None => (length ip =? IPv6len)%nat && (Z.land (ip !!! 0%nat) 254 =? 252)
  end.

Definition IsMulticast (ip : IP) : bool :=
  match To4 ip with
  | Some ip4 => Z.land (ip4 !!! 0%nat) 240 =? 224
  | None => (length ip =? IPv6len)%nat && (ip !!! 0%nat =? 255)
  end.

Definition IsLinkLocalUnicast (ip : IP) : bool :=
  match To4 ip with
  | Some ip4 => (ip4 !!! 0%nat =? 169) && (ip4 !!! 1%nat =? 254)
  | None =>
      (length ip =? IPv6len)%nat && (ip !!! 0%nat =? 254)
      && (Z.land (ip !!! 1%nat) 192 =? 128)
  end.

(** *** Networks *)

Record IPNet := { IPNet_IP : option IP; IPNet_Mask : option IPMask }.

(** [dtoi]: the decimal number at the start of [s], the count of digits
    read, and whether there was a number below [0xFFFFFF]. *)
Fixpoint dtoi_loop (s : string) (n i : Z) : Z * Z * bool :=
  match s with
  | String c rest =>
      if between "0" "9" c then
        let n := n * 10 + (byte_of c - byte_of "0") in
        if 16777215 <=? n then (16777215, i, false)
        else dtoi_loop rest n (i + 1)
      else if i =? 0 then (0, 0, false) else (n, i, true)
  | EmptyString => if i =? 0 then (0, 0, false) else (n, i, true)
  end.

Definition dtoi (s : string) : Z * Z * bool := dtoi_loop s 0 0.

(** The loop of [CIDRMask] over the [l] bytes of the mask; [n] is the count
    of one bits still to be set. *)
Fixpoint CIDRMask_loop (l : nat) (n : Z) : IPMask :=
  match l with
  | O => []
  | S l' =>
      if 8 <=? n then 255 :: CIDRMask_loop l' (n - 8)
      else Z.lxor 255 (Z.shiftr 255 n) :: CIDRMask_loop l' 0
  end.

Definition CIDRMask (ones bits : Z) : option IPMask :=
  if negb (bits =? 32) && negb (bits =? 128) then None
  else if (ones <? 0) || (bits <? ones) then None
  else Some (CIDRMask_loop (Z.to_nat (bits / 8)) ones).

(** [ip.Mask(mask)]. *)
Definition Mask (ip : IP) (mask : IPMask) : option IP :=
  let mask :=
    if (length mask =? IPv6len)%nat && (length ip =? IPv4len)%nat
       && allFF (take 12 mask)
    then drop 12 mask else mask in
  let ip :=
    if (length mask =? IPv4len)%nat && (length ip =? IPv6len)%nat
       && bytesEqual (take 12 ip) netip.v4InV6Prefix
    then drop 12 ip else ip in
  if negb (length ip =? length mask)%nat then None
  else Some (zip_with Z.land ip mask).

(** [net.ParseCIDR(s)]: the address and the network, [None] on an error. *)
Definition ParseCIDR (s : string) : option (IP * IPNet) :=
  match netip.cutByte s "/" with
  | None => None
  | Some (addr, mask) =>
      match netip.ParseAddr addr with
      | None => None
      | Some ipAddr =>
          if negb (isEmpty (netip.Zone ipAddr)) then None
          else
            let '(n, i, ok) := dtoi mask in
            if negb ok || negb (i =? Z.of_nat (String.length mask))
               || (n <? 0) || (netip.BitLen ipAddr <? n)
            then None
            else
              let m := CIDRMask n (netip.BitLen ipAddr) in
              let addr16 := netip.As16 ipAddr in
              Some (addr16,
                    {| IPNet_IP := Mask addr16 (default [] m); IPNet_Mask := m |})
      end
  end.

Definition networkNumberAndMask (n : IPNet) : option (IP * IPMask) :=
  let ip :=
    match n.(IPNet_IP) with
    | None => None
    | Some nip =>
        match To4 nip with
        | Some ip4 => Some ip4
        | None => if (length nip =? IPv6len)%nat then Some nip else None
        end
    end in
  match ip, n.(IPNet_Mask) with
  | Some ip, Some m =>
      if (length m =? IPv4len)%nat then
        if (length ip =? IPv4len)%nat then Some (ip, m) else None
      else if (length m =? IPv6len)%nat then
        if (length ip =? IPv4len)%nat then Some (ip, drop 12 m) else Some (ip, m)
      else None
  | _, _ => None
  end.

(** [n.Contains(ip)]. *)
Definition IPNet_Contains (n : IPNet) (ip : IP) : bool :=
  match networkNumberAndMask n with
  | None => false
  | Some (nn, m) =>
      let ip := match To4 ip with Some x => x | None => ip end in
      if negb (length ip =? length nn)%nat then false
      else forallb (fun i => Z.land (nn !!! i) (m !!! i) =? Z.land (ip !!! i) (m !!! i))
                   (seq 0 (length ip))
  end.

End net.

(** ** Package [structpb]: protobuf's dynamically typed values *)

Module structpb.

Local Unset Elimination Schemes.

(** [Value] with its [Kind] cases and [Struct]; a [*Value] or [*Struct] that
    may be nil is an [option], and so is the map [Fields]. *)
Inductive Value :=
| NullValue
| NumberValue (float64bits : Z)
| StringValue (s : string)
| BoolValue (b : bool)
| StructValue (s : option Struct)
| ListValue (values : list (option Value))
with Struct :=
| Build_Struct (fields : option (gmap string (option Value))).

Local Set Elimination Schemes.

Definition Fields (x : Struct) : option (gmap string (option Value)) :=
  match x with Build_Struct fields => fields end.

Definition NewBoolValue (v : bool) : Value := BoolValue v.
Definition NewStringValue (v : string) : Value := StringValue v.

(** [x.GetStringValue()]: the string of a string value, [""] otherwise. *)
Definition GetStringValue (x : Value) : string :=
  match x with
  | StringValue s => s
  | _ => ""
  end.

End structpb.

(** ** The messages of the external-processing protocol *)

Module extProcPb.

Record HttpHeaders := {
  HttpHeaders_Headers : list (string * string);
  HttpHeaders_EndOfStream : bool }.

Record HttpBody := {
  HttpBody_Body : string;
  HttpBody_EndOfStream : bool }.

Record HttpTrailers := {
  HttpTrailers_Trailers : list (string * string) }.

(** The phase of a [ProcessingRequest] (the oneof [Request]). *)
Inductive isProcessingRequest_Request :=
| ProcessingRequest_RequestHeaders (v : HttpHeaders)
| ProcessingRequest_ResponseHeaders (v : HttpHeaders)
| ProcessingRequest_RequestBody (v : HttpBody)
| ProcessingRequest_ResponseBody (v : HttpBody)
| ProcessingRequest_RequestTrailers (v : HttpTrailers)
| ProcessingRequest_ResponseTrailers (v : HttpTrailers).

Record ProcessingRequest := {
  Request : option isProcessingRequest_Request;
  Attributes : option (gmap string (option structpb.Struct)) }.

(** [typev3.StatusCode] is the numeric HTTP status. *)
Definition StatusCode := Z.
Definition StatusCode_Forbidden : StatusCode := 403.

Record HttpStatus := { HttpStatus_Code : StatusCode }.

(** [Body] is [[]byte]; a Go string converts to the same bytes. *)
Record ImmediateResponse := {
  ImmediateResponse_Status : option HttpStatus;
  ImmediateResponse_Body : string }.

Inductive CommonResponse_ResponseStatus :=
| CommonResponse_CONTINUE
| CommonResponse_CONTINUE_AND_REPLACE.

Record CommonResponse := { CommonResponse_Status : CommonResponse_ResponseStatus }.

Record HeadersResponse := { HeadersResponse_Response : option CommonResponse }.

(** The oneof [Response] of a [ProcessingResponse]; the server builds two of
    its cases. *)
Inductive isProcessingResponse_Response :=
| ProcessingResponse_RequestHeaders (v : HeadersResponse)
| ProcessingResponse_ResponseHeaders (v : HeadersResponse)
| ProcessingResponse_ImmediateResponse (v : ImmediateResponse).

Record ProcessingResponse := {
  Response : option isProcessingResponse_Response;
  DynamicMetadata : option structpb.Struct }.

End extProcPb.

(** ** Package [extproc]: [server.go] *)

Module extproc.

Import extProcPb.

(** [m[key]] on a Go map of pointers: nil when the key is absent. *)
Definition index {V} (m : gmap string (option V)) (key : string) : option V :=
  match m !! key with
  | Some v => v
  | None => None
  end.

(** [extractUpstreamIP] extracts the upstream IP address from the request
    attributes. *)
Definition extractUpstreamIP (attributes : option (gmap string (option structpb.Struct)))
    : string :=
  match attributes with
  | None => ""
  | Some attributes =>
      match index attributes "envoy.filters.http.ext_proc" with
      | None => ""
      | Some filterAttributes =>
          match structpb.Fields filterAttributes with
          | None => ""
          | Some fields =>
              match fields !! "upstream.address" with
              | Some (Some upstream) =>
                  let upstreamAddr := structpb.GetStringValue upstream in
                  if negb (String.eqb upstreamAddr "")
                  then Split upstreamAddr ":" !!! 0%nat
                  else ""
              | _ => ""
              end
          end
      end
  end.

(** The documentation networks, as [net.ParseCIDR] returns them (the source
    drops the error result). *)
Definition network (cidr : string) : net.IPNet :=
  match net.ParseCIDR cidr with
  | Some (_, n) => n
  | None => {| net.IPNet_IP := None; net.IPNet_Mask := None |}
  end.

Definition testNet1 : net.IPNet := network "192.0.2.0/24".
Definition testNet2 : net.IPNet := network "198.51.100.0/24".
Definition testNet3 : net.IPNet := network "203.0.113.0/24".
Definition testNet6 : net.IPNet := network "2001:db8::/32".

(** The body of [isUpstreamIPSafe]; [self] is the function itself, called on
    the text behind ["::ffff:"]. *)
Definition isUpstreamIPSafe_body (self : string -> bool * string) (ipStr : string)
    : bool * string :=
  if String.eqb ipStr "" then (false, "empty IP address")
  else
    match net.ParseIP ipStr with
    | None => (false, "invalid IP address")
    | Some ip =>
        if net.IsLoopback ip then (false, "localhost/loopback address is blocked")
        else if net.IsUnspecified ip then (false, "unspecified address is blocked")
        else if net.IsLinkLocalUnicast ip then (false, "link-local address is blocked")
        else if net.IsMulticast ip then (false, "multicast address is blocked")
        else if net.IsPrivate ip
        then (false, "private network address is blocked (RFC1918)")
        else if String.eqb ipStr "169.254.169.254"
        then (false, "AWS metadata service IP is blocked")
        else if String.eqb ipStr "fd00:ec2::254"
        then (false, "GCP metadata service IPv6 is blocked")
        else
          let mapped :=
            if isNil (net.To4 ip) && negb (isNil (net.To16 ip)) then
              if HasPrefix ipStr "::ffff:" then
                let ipv4Part := TrimPrefix ipStr "::ffff:" in
                let '(safe, reason) := self ipv4Part in
                if negb safe
                then Some (false, "IPv4-mapped IPv6 address blocked: " +:+ reason)
                else None
              else None
            else None in
          match mapped with
          | Some verdict => verdict
          | None =>
              if net.IPNet_Contains testNet1 ip || net.IPNet_Contains testNet2 ip
                 || net.IPNet_Contains testNet3 ip || net.IPNet_Contains testNet6 ip
              then (false, "documentation/test network range is blocked")
              else (true, "")
          end
    end.

(** The recursive call is on a text 7 bytes shorter, so a depth of one more
    than the length of the text is never exhausted. *)
Fixpoint isUpstreamIPSafe_depth (depth : nat) (ipStr : string) : bool * string :=
  match depth with
  | O => (false, "")
  | S depth => isUpstreamIPSafe_body (isUpstreamIPSafe_depth depth) ipStr
  end.

(** [isUpstreamIPSafe] checks if the upstream IP is safe to connect to:
    [true] if safe, [false] with a reason if it should be blocked. *)
Definition isUpstreamIPSafe (ipStr : string) : bool * string :=
  isUpstreamIPSafe_depth (S (String.length ipStr)) ipStr.

(** *** The stream session *)

Inductive codes := codes_Unknown | codes_Canceled | codes_Unimplemented.

Inductive error :=
| io_EOF
| context_Canceled
| context_DeadlineExceeded
| status_Error (c : codes) (msg : string)
| other_error (msg : string).

(** [err.Error()], as [%v] prints an error. *)
Definition Error (err : error) : string :=
  match err with
  | io_EOF => "EOF"
  | context_Canceled => "context canceled"
  | context_DeadlineExceeded => "context deadline exceeded"
  | status_Error c msg =>
      "rpc error: code = "
      +:+ match c with
          | codes_Unknown => "Unknown"
          | codes_Canceled => "Canceled"
          | codes_Unimplemented => "Unimplemented"
          end
      +:+ " desc = " +:+ msg
  | other_error msg => msg
  end.

Definition is_EOF (err : error) : bool :=
  match err with io_EOF => true | _ => false end.

(** The lines the session logs, by their format string. *)
Inductive log_line :=
| log_UpstreamIP (upstreamIP : string)
    (* "Upstream IP Address: %s\n" *)
| log_BLOCKED (upstreamIP reason : string)
    (* "BLOCKED: Upstream IP %s - %s\n" *)
| log_ALLOWED (upstreamIP : string)
    (* "ALLOWED: Upstream IP %s\n" *)
| log_Unexpected (v : option isProcessingRequest_Request)
    (* "Unexpected Request type %+v\n" *)
| log_SendError (err : error).
    (* "send error %v" *)

(** What a session does that its peer or its operator can observe. *)
Inductive event :=
| EvRecv (req : ProcessingRequest)          (* srv.Recv() returned req *)
| EvSend (resp : option ProcessingResponse) (* srv.Send(resp), resp may be nil *)
| EvLog (line : log_line).

(** What the stream presents to one turn of the loop: the context is done
    at the [select]; or [srv.Recv()] returns a request and the following
    [srv.Send] returns [sendErr]; or [srv.Recv()] returns an error. *)
Inductive turn :=
| CtxDone (ctxErr : error)
| RecvMsg (req : ProcessingRequest) (sendErr : option error)
| RecvErr (err : error).

(** How [Process] ends: it returns an error or nil, or it stays blocked in
    [srv.Recv()] when the stream presents nothing more. *)
Inductive outcome :=
| Returned (err : option error)
| Blocked.

(** The verdict computed at lines 160-172, with the line it logs. *)
Definition decide (req : ProcessingRequest) : string * bool * string * list event :=
  let upstreamIP := extractUpstreamIP req.(Attributes) in
  if negb (String.eqb upstreamIP "") then
    let '(isSafe, reason) := isUpstreamIPSafe upstreamIP in
    (upstreamIP, isSafe, reason, [EvLog (log_UpstreamIP upstreamIP)])
  else (upstreamIP, false, "unable to extract upstream IP address", []).

Definition denyResponse (reason : string) : ProcessingResponse :=
  {| Response :=
       Some (ProcessingResponse_ImmediateResponse
               {| ImmediateResponse_Status :=
                    Some {| HttpStatus_Code := StatusCode_Forbidden |};
                  ImmediateResponse_Body := reason |});
     DynamicMetadata :=
       Some (structpb.Build_Struct
               (Some (<["blocked" := Some (structpb.NewBoolValue true)]>
                        (<["reason" := Some (structpb.NewStringValue reason)]> ∅)))) |}.

Definition continueResponse : ProcessingResponse :=
  {| Response :=
       Some (ProcessingResponse_RequestHeaders
               {| HeadersResponse_Response :=
                    Some {| CommonResponse_Status := CommonResponse_CONTINUE |} |});
     DynamicMetadata := None |}.

(** The [switch] on the request type: the response built ([None] is the nil
    [resp] left by the default case) and the line logged. *)
Definition respond (req : ProcessingRequest) (upstreamIP : string) (isSafe : bool)
    (reason : string) : option ProcessingResponse * list event :=
  match req.(Request) with
  | Some (ProcessingRequest_RequestHeaders _) =>
      if negb isSafe
      then (Some (denyResponse reason), [EvLog (log_BLOCKED upstreamIP reason)])
      else (Some continueResponse, [EvLog (log_ALLOWED upstreamIP)])
  | v => (None, [EvLog (log_Unexpected v)])
  end.

(** One turn of the loop after a successful [srv.Recv()]. *)
Definition handle (req : ProcessingRequest) (sendErr : option error) : list event :=
  let '(upstreamIP, isSafe, reason, logged) := decide req in
  let '(resp, logged') := respond req upstreamIP isSafe reason in
  EvRecv req :: logged ++ logged' ++ EvSend resp
    :: match sendErr with
       | Some err => [EvLog (log_SendError err)]
       | None => []
       end.

(** [Process] on a stream that presents the turns [srv]: the events of the
    session in order and how it ends. *)
Fixpoint Process (srv : list turn) : list event * outcome :=
  match srv with
  | [] => ([], Blocked)
  | CtxDone ctxErr :: _ => ([], Returned (Some ctxErr))
  | RecvErr err :: _ =>
      if is_EOF err then ([], Returned None)
      else ([], Returned (Some (status_Error codes_Unknown
                                  ("cannot receive stream request: " +:+ Error err))))
  | RecvMsg req sendErr :: srv' =>
      let '(events, result) := Process srv' in
      (handle req sendErr ++ events, result)
  end.

End extproc.

(** ** Vocabulary of the properties *)

Module policy.

Import extProcPb extproc.

(** The documentation and test networks (TEST-NET-1/2/3, 2001:db8::/32). *)
Definition in_documentation_range (ip : net.IP) : bool :=
  net.IPNet_Contains testNet1 ip || net.IPNet_Contains testNet2 ip
  || net.IPNet_Contains testNet3 ip || net.IPNet_Contains testNet6 ip.

(** The ranges the classifier denies by address. *)
Definition denylisted (ip : net.IP) : bool :=
  net.IsLoopback ip || net.IsUnspecified ip || net.IsLinkLocalUnicast ip
  || net.IsMulticast ip || net.IsPrivate ip || in_documentation_range ip.

(** An address that can be routed globally is an IPv4 address or an IPv6
    address outside the block ::/8, which is reserved by the IETF and holds
    the unspecified, loopback, IPv4-compatible and IPv4-mapped forms. *)
Definition outside_reserved_zero_block (ip : net.IP) : bool :=
  negb (isNil (net.To4 ip)) || negb (ip !!! 0%nat =? 0).

(** The verdict that the checks on the parsed address alone give. *)
Definition verdict_of_address (ip : net.IP) : bool * string :=
  if net.IsLoopback ip then (false, "localhost/loopback address is blocked")
  else if net.IsUnspecified ip then (false, "unspecified address is blocked")
  else if net.IsLinkLocalUnicast ip then (false, "link-local address is blocked")
  else if net.IsMulticast ip then (false, "multicast address is blocked")
  else if net.IsPrivate ip then (false, "private network address is blocked (RFC1918)")
  else if in_documentation_range ip
  then (false, "documentation/test network range is blocked")
  else (true, "").

(** The inputs that are denied whatever else holds: the empty text, a text
    that does not parse, and a text that parses to a denylisted address. *)
Definition must_be_denied (s : string) : bool :=
  String.eqb s ""
  || match net.ParseIP s with
     | None => true
     | Some ip => denylisted ip
     end.

(** A text that parses to a globally routable address outside every
    denylisted range. *)
Definition globally_routable (s : string) : bool :=
  match net.ParseIP s with
  | Some ip => negb (denylisted ip) && outside_reserved_zero_block ip
  | None => false
  end.

(** A dotted-quad IPv4 literal, as Go's parser accepts it. *)
Definition IPv4_literal (s : string) : bool := negb (isNil (netip.parseIPv4 s)).

(** The attribute bundle that holds [value] as the upstream address. *)
Definition upstream_attributes (value : structpb.Value)
    : option (gmap string (option structpb.Struct)) :=
  Some {[ "envoy.filters.http.ext_proc" :=
            Some (structpb.Build_Struct (Some {[ "upstream.address" := Some value ]})) ]}.

(** A header-phase request, and a body-phase request, of an exchange whose
    upstream address attribute is [address]. *)
Definition headers_request (address : string) : ProcessingRequest :=
  {| Request := Some (ProcessingRequest_RequestHeaders
                        {| HttpHeaders_Headers := [(":path", "/")];
                           HttpHeaders_EndOfStream := false |});
     Attributes := upstream_attributes (structpb.StringValue address) |}.

Definition body_request (address : string) : ProcessingRequest :=
  {| Request := Some (ProcessingRequest_RequestBody
                        {| HttpBody_Body := "payload";
                           HttpBody_EndOfStream := true |});
     Attributes := upstream_attributes (structpb.StringValue address) |}.

Definition header_phase (req : ProcessingRequest) : bool :=
  match req.(Request) with
  | Some (ProcessingRequest_RequestHeaders _) => true
  | _ => false
  end.

(** The verdict of the session for an extracted address: the classifier's,
    or the fail-closed one when no address was extracted. *)
Definition session_verdict (upstreamIP : string) : bool * string :=
  if String.eqb upstreamIP "" then (false, "unable to extract upstream IP address")
  else isUpstreamIPSafe upstreamIP.

(** The response the protocol asks for a header-phase request: continue when
    the classifier allows the extracted address, an immediate response with
    the reason otherwise. *)
Definition response_to (req : ProcessingRequest) : ProcessingResponse :=
  let upstreamIP := extractUpstreamIP req.(Attributes) in
  if fst (isUpstreamIPSafe upstreamIP) then continueResponse
  else denyResponse (snd (session_verdict upstreamIP)).

(** The events on the stream itself: receives and sends, without the log. *)
Definition on_stream (ev : event) : bool :=
  match ev with
  | EvLog _ => false
  | _ => true
  end.

Definition wire (events : list event) : list event := List.filter on_stream events.

(** The responses handed to [srv.Send], in order. *)
Fixpoint sent (events : list event) : list (option ProcessingResponse) :=
  match events with
  | [] => []
  | EvSend resp :: events' => resp :: sent events'
  | _ :: events' => sent events'
  end.

Definition arrivals (msgs : list (ProcessingRequest * option error)) : list turn :=
  (fun m => RecvMsg m.1 m.2) <$> msgs.

(** The value of a field of the dynamic metadata of a response. *)
Definition metadata_field (resp : ProcessingResponse) (key : string)
    : option structpb.Value :=
  match resp.(DynamicMetadata) with
  | Some (structpb.Build_Struct (Some fields)) => index fields key
  | _ => None
  end.

Definition is_ImmediateResponse (resp : ProcessingResponse) : bool :=
  match resp.(Response) with
  | Some (ProcessingResponse_ImmediateResponse _) => true
  | _ => false
  end.

(** *** Vocabulary of the further properties *)

(** The text allowed by the classifier, read off its rules: it parses, the
    address is in no denylisted range, and it is not a non-IPv4 address
    written with the prefix ["::ffff:"]. *)
Definition allowed_text (s : string) : bool :=
  match net.ParseIP s with
  | Some ip => negb (denylisted ip) && negb (isNil (net.To4 ip) && HasPrefix s "::ffff:")
  | None => false
  end.

(** Every reason the classifier can give, the empty one of an allowance
    included. *)
Definition reasons : list string :=
  [ ""; "empty IP address"; "invalid IP address";
    "localhost/loopback address is blocked"; "unspecified address is blocked";
    "link-local address is blocked"; "multicast address is blocked";
    "private network address is blocked (RFC1918)";
    "IPv4-mapped IPv6 address blocked: invalid IP address";
    "documentation/test network range is blocked" ].

(** The rules for an IPv4 address a.b.c.d as ranges of its bytes:
    127.0.0.0/8, 0.0.0.0, 169.254.0.0/16, 224.0.0.0/4, 10.0.0.0/8,
    172.16.0.0/12, 192.168.0.0/16, 192.0.2.0/24, 198.51.100.0/24 and
    203.0.113.0/24, in the order of the checks. *)
Definition IPv4_rule (a b c d : Z) : bool * string :=
  if a =? 127 then (false, "localhost/loopback address is blocked")
  else if (a =? 0) && (b =? 0) && (c =? 0) && (d =? 0)
  then (false, "unspecified address is blocked")
  else if (a =? 169) && (b =? 254) then (false, "link-local address is blocked")
  else if (224 <=? a) && (a <=? 239) then (false, "multicast address is blocked")
  else if (a =? 10) || ((a =? 172) && (16 <=? b) && (b <=? 31))
          || ((a =? 192) && (b =? 168))
  then (false, "private network address is blocked (RFC1918)")
  else if ((a =? 192) && (b =? 0) && (c =? 2))
          || ((a =? 198) && (b =? 51) && (c =? 100))
          || ((a =? 203) && (b =? 0) && (c =? 113))
  then (false, "documentation/test network range is blocked")
  else (true, "").

(** The rules for an IPv6 address that is not IPv4-mapped, as ranges of its
    bytes: ::1, ::, fe80::/10, ff00::/8, fc00::/7 and 2001:db8::/32, in the
    order of the checks. *)
Definition IPv6_rule (ip : list Z) : bool * string :=
  if bool_decide (ip = net.IPv6loopback)
  then (false, "localhost/loopback address is blocked")
  else if bool_decide (ip = net.IPv6unspecified)
  then (false, "unspecified address is blocked")
  else if (ip !!! 0%nat =? 254) && (128 <=? ip !!! 1%nat) && (ip !!! 1%nat <=? 191)
  then (false, "link-local address is blocked")
  else if ip !!! 0%nat =? 255 then (false, "multicast address is blocked")
  else if (ip !!! 0%nat =? 252) || (ip !!! 0%nat =? 253)
  then (false, "private network address is blocked (RFC1918)")
  else if (ip !!! 0%nat =? 32) && (ip !!! 1%nat =? 1)
          && (ip !!! 2%nat =? 13) && (ip !!! 3%nat =? 184)
  then (false, "documentation/test network range is blocked")
  else (true, "").

(** The values of a Go [byte]. *)
Definition is_byte (x : Z) : Prop := 0 <= x < 256.

(** The answer of the session to a request of any phase: the response of
    [response_to] for the request headers, a nil response otherwise. *)
Definition reply (req : ProcessingRequest) : option ProcessingResponse :=
  if header_phase req then Some (response_to req) else None.

(** The messages a session receives: those the stream presents before its
    first turn that is not a message. *)
Fixpoint received (srv : list turn) : list ProcessingRequest :=
  match srv with
  | RecvMsg req _ :: srv' => req :: received srv'
  | _ => []
  end.

(** The send errors the stream returns to the session, in order. *)
Fixpoint send_errors (srv : list turn) : list error :=
  match srv with
  | RecvMsg _ (Some err) :: srv' => err :: send_errors srv'
  | RecvMsg _ None :: srv' => send_errors srv'
  | _ => []
  end.

(** The lines of the log about failed sends, in order. *)
Fixpoint logged_send_errors (events : list event) : list error :=
  match events with
  | [] => []
  | EvLog (log_SendError err) :: events' => err :: logged_send_errors events'
  | _ :: events' => logged_send_errors events'
  end.


(** *** The responses and the cancellations, written out *)

(** The "proceed unmodified" response of the request-headers phase, field by
    field: status CONTINUE and no dynamic metadata. *)
Definition Continue_response : ProcessingResponse :=
  {| Response :=
       Some (ProcessingResponse_RequestHeaders
               {| HeadersResponse_Response :=
                    Some {| CommonResponse_Status := CommonResponse_CONTINUE |} |});
     DynamicMetadata := None |}.

(** The immediate response that denies a request, field by field: HTTP
    status 403, the reason as body, and the metadata blocked=true and
    reason=<reason>. *)
Definition Forbidden_response (reason : string) : ProcessingResponse :=
  {| Response :=
       Some (ProcessingResponse_ImmediateResponse
               {| ImmediateResponse_Status := Some {| HttpStatus_Code := 403 |};
                  ImmediateResponse_Body := reason |});
     DynamicMetadata :=
       Some (structpb.Build_Struct
               (Some (<["blocked" := Some (structpb.BoolValue true)]>
                        (<["reason" := Some (structpb.StringValue reason)]> ∅)))) |}.

(** The response a header-phase request must get: [Continue_response] when
    the classifier allows its extracted address, [Forbidden_response] with
    the classifier's reason when it does not, and with the reason "unable
    to extract upstream IP address" when no address was extracted. *)
Definition expected_response (req : ProcessingRequest) : ProcessingResponse :=
  let upstreamIP := extractUpstreamIP req.(Attributes) in
  if fst (isUpstreamIPSafe upstreamIP) then Continue_response
  else Forbidden_response
         (if String.eqb upstreamIP "" then "unable to extract upstream IP address"
          else snd (isUpstreamIPSafe upstreamIP)).

(** Where in the loop the cancellation of the stream's context lands:
    before the loop reaches its [select]; while [srv.Recv] blocks, which
    then returns [recvErr]; or while the message [req] that [srv.Recv] has
    returned is handled, so that the loop meets it at its next [select]. *)
Inductive cancellation :=
| CancelBeforeSelect
| CancelInRecv (recvErr : error)
| CancelInHandling (req : ProcessingRequest) (sendErr : option error).

(** A stream whose context is cancelled with [ctx.Err() = ctxErr] after the
    messages [msgs] were handled; [rest] is what the stream would present
    to a session that went on. *)
Definition canceled_stream (msgs : list (ProcessingRequest * option error))
    (c : cancellation) (ctxErr : error) (rest : list turn) : list turn :=
  arrivals msgs
  ++ match c with
     | CancelBeforeSelect => CtxDone ctxErr :: rest
     | CancelInRecv recvErr => RecvErr recvErr :: rest
     | CancelInHandling req sendErr => RecvMsg req sendErr :: CtxDone ctxErr :: rest
     end.

(** Once the context is cancelled the session returns the context's error
    and sends nothing beyond the responses to the messages handled
    before. *)
Definition ends_with_context_error (msgs : list (ProcessingRequest * option error))
    (c : cancellation) (ctxErr : error) (rest : list turn) : Prop :=
  snd (Process (canceled_stream msgs c ctxErr rest)) = Returned (Some ctxErr)
  /\ sent (fst (Process (canceled_stream msgs c ctxErr rest)))
     = sent (fst (Process (arrivals msgs))).

End policy.

(** ** Properties of the classifier *)

Import extProcPb extproc policy.

Lemma HasPrefix_length (s prefix : string) :
  HasPrefix s prefix = true ->
  (String.length (skipn_string (String.length prefix) s) + String.length prefix
   = String.length s)%nat.
Proof.
  revert s. induction prefix as [|p prefix IH]; intros s H.
  - simpl. lia.
  - destruct s as [|c s]; simpl in H; [discriminate|].
    apply andb_true_iff in H as [_ H]. specialize (IH s H). simpl. lia.
Qed.

Lemma TrimPrefix_shorter (s prefix : string) :
  HasPrefix s prefix = true -> prefix <> "" ->
  (String.length (TrimPrefix s prefix) < String.length s)%nat.
Proof.
  intros H Hne. unfold TrimPrefix. rewrite H.
  pose proof (HasPrefix_length s prefix H).
  destruct prefix; [congruence|]. simpl in *. lia.
Qed.

(** The body only calls [self] on the text behind the prefix. *)
Lemma isUpstreamIPSafe_body_ext (f g : string -> bool * string) (s : string) :
  (HasPrefix s "::ffff:" = true ->
   f (TrimPrefix s "::ffff:") = g (TrimPrefix s "::ffff:")) ->
  isUpstreamIPSafe_body f s = isUpstreamIPSafe_body g s.
Proof.
  intros Hfg. unfold isUpstreamIPSafe_body.
  destruct (HasPrefix s "::ffff:") eqn:Hp.
  - rewrite (Hfg eq_refl). reflexivity.
  - reflexivity.
Qed.

Lemma isUpstreamIPSafe_depth_enough (d1 d2 : nat) (s : string) :
  (String.length s < d1)%nat -> (String.length s < d2)%nat ->
  isUpstreamIPSafe_depth d1 s = isUpstreamIPSafe_depth d2 s.
Proof.
  revert d2 s. induction d1 as [|d1 IH]; intros d2 s H1 H2; [lia|].
  destruct d2 as [|d2]; [lia|]. simpl.
  apply isUpstreamIPSafe_body_ext. intros Hp.
  pose proof (TrimPrefix_shorter s "::ffff:" Hp ltac:(discriminate)).
  apply IH; lia.
Qed.

(** [isUpstreamIPSafe] satisfies the recursive equation of the source: the
    depth bound never cuts a call short. *)
Lemma isUpstreamIPSafe_unfold (s : string) :
  isUpstreamIPSafe s = isUpstreamIPSafe_body isUpstreamIPSafe s.
Proof.
  unfold isUpstreamIPSafe at 1. simpl.
  apply isUpstreamIPSafe_body_ext. intros Hp.
  pose proof (TrimPrefix_shorter s "::ffff:" Hp ltac:(discriminate)).
  unfold isUpstreamIPSafe. apply isUpstreamIPSafe_depth_enough; lia.
Qed.

Lemma ParseIP_nonempty (s : string) (ip : net.IP) :
  net.ParseIP s = Some ip -> String.eqb s "" = false.
Proof.
  intros H. destruct (String.eqb_spec s ""); [subst; discriminate | reflexivity].
Qed.

(** The two metadata literals parse to addresses that an earlier check has
    already denied, so the comparisons with them never decide a verdict. *)
Lemma metadata_literals_denied_earlier (s : string) (ip : net.IP) :
  net.ParseIP s = Some ip ->
  net.IsLinkLocalUnicast ip = false -> net.IsPrivate ip = false ->
  String.eqb s "169.254.169.254" = false /\ String.eqb s "fd00:ec2::254" = false.
Proof.
  intros H Hl Hp. split.
  - destruct (String.eqb_spec s "169.254.169.254"); [|reflexivity].
    subst s. vm_compute in H. injection H as <-. vm_compute in Hl. discriminate.
  - destruct (String.eqb_spec s "fd00:ec2::254"); [|reflexivity].
    subst s. vm_compute in H. injection H as <-. vm_compute in Hp. discriminate.
Qed.

(** Unless the address is not IPv4 and its text starts with ["::ffff:"], the
    verdict is the one of the checks on the address. *)
Lemma isUpstreamIPSafe_by_address (s : string) (ip : net.IP) :
  net.ParseIP s = Some ip ->
  isNil (net.To4 ip) && HasPrefix s "::ffff:" = false ->
  isUpstreamIPSafe s = verdict_of_address ip.
Proof.
  intros H Hm. rewrite isUpstreamIPSafe_unfold. unfold isUpstreamIPSafe_body.
  rewrite (ParseIP_nonempty s ip H), H. unfold verdict_of_address.
  destruct (net.IsLoopback ip); [reflexivity|].
  destruct (net.IsUnspecified ip); [reflexivity|].
  destruct (net.IsLinkLocalUnicast ip) eqn:Hl; [reflexivity|].
  destruct (net.IsMulticast ip); [reflexivity|].
  destruct (net.IsPrivate ip) eqn:Hp; [reflexivity|].
  destruct (metadata_literals_denied_earlier s ip H Hl Hp) as [-> ->].
  destruct (isNil (net.To4 ip)); simpl in Hm |- *; [rewrite Hm|];
    destruct (isNil (net.To16 ip)); reflexivity.
Qed.

(** Every verdict is either a denial with a reason or an allowance without
    one. *)
Lemma verdict_of_address_reason (ip : net.IP) :
  (fst (verdict_of_address ip) = false /\ snd (verdict_of_address ip) <> "")
  \/ verdict_of_address ip = (true, "").
Proof.
  unfold verdict_of_address.
  repeat match goal with
         | |- context [if ?b then _ else _] => destruct b; [left; split; [reflexivity|discriminate]|]
         end.
  right. reflexivity.
Qed.

Lemma isUpstreamIPSafe_reason (s : string) :
  (fst (isUpstreamIPSafe s) = false /\ snd (isUpstreamIPSafe s) <> "")
  \/ isUpstreamIPSafe s = (true, "").
Proof.
  rewrite isUpstreamIPSafe_unfold. unfold isUpstreamIPSafe_body.
  repeat match goal with
         | |- context [if ?b then (false, _) else _] =>
             destruct b; [left; split; [reflexivity|discriminate]|]
         | |- context [match ?o with Some _ => _ | None => (false, _) end] =>
             destruct o; [|left; split; [reflexivity|discriminate]]
         end.
  destruct (isNil (net.To4 _) && negb (isNil (net.To16 _))).
  - destruct (HasPrefix s "::ffff:").
    + destruct (isUpstreamIPSafe (TrimPrefix s "::ffff:")) as [safe reason].
      destruct safe; simpl.
      * destruct (_ || _); [left; split; [reflexivity|discriminate]|right; reflexivity].
      * left; split; [reflexivity|discriminate].
    + destruct (_ || _); [left; split; [reflexivity|discriminate]|right; reflexivity].
  - destruct (_ || _); [left; split; [reflexivity|discriminate]|right; reflexivity].
Qed.

(** An address in a denylisted range is denied whatever its text. *)
Lemma denylisted_denied (s : string) (ip : net.IP) :
  net.ParseIP s = Some ip -> denylisted ip = true ->
  fst (isUpstreamIPSafe s) = false.
Proof.
  intros H Hd. rewrite isUpstreamIPSafe_unfold. unfold isUpstreamIPSafe_body.
  rewrite (ParseIP_nonempty s ip H), H.
  unfold denylisted, in_documentation_range in Hd.
  destruct (net.IsLoopback ip); [reflexivity|].
  destruct (net.IsUnspecified ip); [reflexivity|].
  destruct (net.IsLinkLocalUnicast ip); [reflexivity|].
  destruct (net.IsMulticast ip); [reflexivity|].
  destruct (net.IsPrivate ip); [reflexivity|].
  simpl in Hd. rewrite Hd.
  repeat match goal with
         | |- context [if ?b then (false, _) else _] => destruct b; [reflexivity|]
         end.
  destruct (isNil (net.To4 _) && negb (isNil (net.To16 _))); [|reflexivity].
  destruct (HasPrefix s "::ffff:"); [|reflexivity].
  destruct (isUpstreamIPSafe (TrimPrefix s "::ffff:")) as [[] reason]; reflexivity.
Qed.

(** ** Properties of the address parser *)

Lemma parseIPv4Fields_loop_length (s : string) :
  forall i prev val pos digLen fields out,
    netip.parseIPv4Fields_loop s i prev val pos digLen fields = Some out ->
    length out = length fields.
Proof.
  induction s as [|c s IH]; intros i prev val pos digLen fields out H; simpl in H.
  - destruct (pos <? 3)%nat; [discriminate|]. injection H as <-.
    apply length_insert.
  - destruct (between "0" "9" c).
    + destruct ((digLen =? 1) && (val =? 0)); [discriminate|].
      destruct (255 <? _); [discriminate|]. eauto.
    + destruct (Ascii.eqb c "."); [|discriminate].
      destruct ((i =? 0) || isEmpty s || Ascii.eqb prev "."); [discriminate|].
      destruct (pos =? 3)%nat; [discriminate|].
      apply IH in H. rewrite H. apply length_insert.
Qed.

Lemma write4_length (ip fields : list Z) (i : Z) :
  0 <= i -> i + 4 <= 16 -> length ip = 16%nat -> length fields = 4%nat ->
  length (netip.write4 ip i fields) = 16%nat.
Proof.
  intros Hi Hi' Hip Hf. unfold netip.write4.
  rewrite !length_app, length_take, length_drop. lia.
Qed.

(** Once an ellipsis has been seen the loop keeps its position, and the
    address stays 16 bytes long. *)
Lemma parseIPv6_loop_invariant (fuel : nat) :
  forall i e ip s i' e' ip' s',
    0 <= i -> 0 <= e -> length ip = 16%nat ->
    netip.parseIPv6_loop fuel i e ip s = Some (i', e', ip', s') ->
    e' = e /\ length ip' = 16%nat.
Proof.
  induction fuel as [|fuel IH]; intros i e ip s i' e' ip' s' Hi He Hip H;
    cbn [netip.parseIPv6_loop] in H;
    (destruct (16 <=? i) eqn:Hlim; [injection H as <- <- <- <-; auto|]);
    [discriminate|].
  unfold netip.parseIPv6_turn in H.
  destruct (netip.hexGroup_loop s 0 0) as [[[off acc] rest]|]; [|discriminate].
  destruct (off =? 0); [discriminate|].
  destruct (HasPrefix rest ".").
  - destruct ((e <? 0) && negb (i =? 12)); [discriminate|].
    destruct (16 <? i + 4) eqn:Hroom; [discriminate|].
    destruct (netip.parseIPv4Fields _ _) as [fields|] eqn:Hf; [|discriminate].
    injection H as <- <- <- <-. split; [reflexivity|].
    apply write4_length; try lia.
    apply parseIPv4Fields_loop_length in Hf. rewrite Hf.
    rewrite length_take, length_drop. lia.
  - set (ip2 := <[Z.to_nat (i + 1):=_]> (<[Z.to_nat i:=_]> ip)) in H.
    assert (length ip2 = 16%nat) as Hip2
      by (unfold ip2; rewrite !length_insert; exact Hip).
    destruct rest as [|c s1]; [injection H as <- <- <- <-; auto|].
    destruct (negb (Ascii.eqb c ":")); [discriminate|].
    destruct s1 as [|c1 s2]; [discriminate|].
    destruct (Ascii.eqb c1 ":").
    + assert ((0 <=? e) = true) as Hz by lia. rewrite Hz in H. discriminate.
    + apply IH in H; auto; lia.
Qed.

(** The turns given to the loop are enough: with [16 <= i + 2 * turns] one
    more turn changes nothing, so no parse fails for want of turns. *)
Lemma parseIPv6_turn_ext (f g : Z -> Z -> list Z -> string -> option (Z * Z * list Z * string))
    (i e : Z) (ip : list Z) (s : string) :
  (forall e' ip' s', f (i + 2) e' ip' s' = g (i + 2) e' ip' s') ->
  netip.parseIPv6_turn f i e ip s = netip.parseIPv6_turn g i e ip s.
Proof.
  intros Hfg. unfold netip.parseIPv6_turn.
  destruct (netip.hexGroup_loop s 0 0) as [[[off acc] rest]|]; [|reflexivity].
  destruct (off =? 0); [reflexivity|].
  destruct (HasPrefix rest "."); [reflexivity|].
  destruct rest as [|c s1]; [reflexivity|].
  destruct (negb (Ascii.eqb c ":")); [reflexivity|].
  destruct s1 as [|c1 s2]; [reflexivity|].
  rewrite !Hfg. reflexivity.
Qed.

Lemma parseIPv6_loop_turns_enough (turns : nat) :
  forall i e ip s,
    16 <= i + 2 * Z.of_nat turns ->
    netip.parseIPv6_loop (S turns) i e ip s = netip.parseIPv6_loop turns i e ip s.
Proof.
  induction turns as [|turns IH]; intros i e ip s Hi.
  - cbn [netip.parseIPv6_loop]. assert ((16 <=? i) = true) as -> by lia. reflexivity.
  - change (netip.parseIPv6_loop (S (S turns)) i e ip s)
      with (if 16 <=? i then Some (i, e, ip, s)
            else netip.parseIPv6_turn (netip.parseIPv6_loop (S turns)) i e ip s).
    change (netip.parseIPv6_loop (S turns) i e ip s)
      with (if 16 <=? i then Some (i, e, ip, s)
            else netip.parseIPv6_turn (netip.parseIPv6_loop turns) i e ip s).
    destruct (16 <=? i); [reflexivity|].
    apply parseIPv6_turn_ext. intros e' ip' s'. apply IH. lia.
Qed.

Lemma clear_length (ip : list Z) (from to : Z) :
  length (netip.clear ip from to) = length ip.
Proof.
  unfold netip.clear. generalize (seq (Z.to_nat from) (Z.to_nat (to - from))).
  intros ks. revert ip. induction ks as [|k ks IH]; intros ip; simpl; [reflexivity|].
  rewrite IH. apply length_insert.
Qed.

Lemma shiftTail_length (ip : list Z) (i e n : Z) :
  length (netip.shiftTail ip i e n) = length ip.
Proof.
  unfold netip.shiftTail. generalize (rev (seq (Z.to_nat e) (Z.to_nat (i - e)))).
  intros js. revert ip. induction js as [|j js IH]; intros ip; simpl; [reflexivity|].
  rewrite IH. apply length_insert.
Qed.

Lemma clear_from_zero (ip : list Z) (to : Z) :
  0 < to -> (0 < length ip)%nat -> netip.clear ip 0 to !!! 0%nat = 0.
Proof.
  intros Hto Hlen. unfold netip.clear.
  replace (Z.to_nat (to - 0)) with (S (Z.to_nat (to - 1))) by lia.
  change (Z.to_nat 0) with 0%nat. cbn [seq foldl].
  assert (forall ks (l : list Z), l !!! 0%nat = 0 ->
            foldl (fun ip k => <[k:=0]> ip) l ks !!! 0%nat = 0) as Hkeep.
  { induction ks as [|k ks IH]; intros l Hl; simpl; [exact Hl|].
    apply IH. destruct l as [|x l]; [exact Hl|]. destruct k; [reflexivity|exact Hl]. }
  apply Hkeep. destruct ip; [simpl in Hlen; lia | reflexivity].
Qed.

Lemma cutByte_keeps_prefix (c1 c2 : ascii) (s l r : string) (c : ascii) :
  netip.cutByte (String c1 (String c2 s)) c = Some (l, r) ->
  Ascii.eqb c1 c = false -> Ascii.eqb c2 c = false ->
  exists l', l = String c1 (String c2 l').
Proof.
  intros H H1 H2. simpl in H. rewrite H1, H2 in H.
  destruct (netip.cutByte s c) as [[l0 r0]|]; [|discriminate].
  injection H as <- <-. eauto.
Qed.

(** A text that starts with ["::"] parses, if at all, to an address whose
    first byte is zero: the ellipsis stands for at least one group. *)
Lemma ParseIP_leading_ellipsis (s : string) (ip : net.IP) :
  net.ParseIP s = Some ip -> HasPrefix s "::" = true -> ip !!! 0%nat = 0.
Proof.
  intros H Hp.
  destruct s as [|c1 [|c2 s]]; try discriminate.
  { simpl in Hp. rewrite andb_false_r in Hp. discriminate. }
  simpl in Hp. apply andb_true_iff in Hp as [Hc1 Hc2].
  apply andb_true_iff in Hc2 as [Hc2 _].
  apply Ascii.eqb_eq in Hc1, Hc2. subst c1 c2.
  unfold net.ParseIP, netip.ParseAddr in H. cbn [netip.ParseAddr_scan] in H.
  change (Ascii.eqb ":" ".") with false in H.
  change (Ascii.eqb ":" ":") with true in H. cbv iota in H.
  unfold netip.parseIPv6 in H.
  assert (exists t zone,
    match netip.cutByte (String ":" (String ":" s)) "%" with
    | Some (s0, zone) => if isEmpty zone then None else Some (s0, zone)
    | None => Some (String ":" (String ":" s), "")
    end = Some (String ":" (String ":" t), zone)
    \/ match netip.cutByte (String ":" (String ":" s)) "%" with
       | Some (s0, zone) => if isEmpty zone then None else Some (s0, zone)
       | None => Some (String ":" (String ":" s), "")
       end = None) as (t & zone & Hcut).
  { destruct (netip.cutByte (String ":" (String ":" s)) "%") as [[l r]|] eqn:Hc.
    - apply cutByte_keeps_prefix in Hc as [l' ->]; try reflexivity.
      exists l', r. destruct (isEmpty r); auto.
    - exists s, "". auto. }
  destruct Hcut as [Hcut|Hcut]; rewrite Hcut in H; [|discriminate].
  change (HasPrefix (String ":" (String ":" t)) "::") with true in H.
  cbv iota in H. change (skipn_string 2 (String ":" (String ":" t))) with t in H.
  cbn [andb] in H.
  destruct (isEmpty t).
  - simpl in H. destruct (isEmpty zone); [|discriminate]. injection H as <-. reflexivity.
  - destruct (netip.parseIPv6_loop 8 0 0 netip.zeros16 t)
      as [[[[i e] ip'] s']|] eqn:Hloop; [|discriminate].
    apply parseIPv6_loop_invariant in Hloop as [-> Hlen]; try lia; [|reflexivity].
    destruct (negb (isEmpty s')); [discriminate|].
    destruct (i <? 16) eqn:Hi; [|discriminate].
    cbn [Z.ltb Z.compare] in H. simpl netip.Zone in H. simpl netip.As16 in H.
    destruct (isEmpty zone); [|discriminate]. injection H as <-.
    apply clear_from_zero; [lia|]. rewrite shiftTail_length, Hlen. lia.
Qed.

(** C1.  The classifier denies, with a non-empty reason, the empty text,
    every text that does not parse, and every text that parses to a
    loopback, unspecified, link-local, multicast, private or documentation
    address; it allows, with an empty reason, every text that parses to a
    globally routable address in none of these ranges. *)
Theorem isUpstreamIPSafe_classification (s : string) :
  (must_be_denied s = true ->
   fst (isUpstreamIPSafe s) = false /\ snd (isUpstreamIPSafe s) <> "")
  /\ (globally_routable s = true -> isUpstreamIPSafe s = (true, "")).
Proof.
  split.
  - intros H.
    assert (fst (isUpstreamIPSafe s) = false) as Hdeny.
    { unfold must_be_denied in H.
      destruct (String.eqb s "") eqn:He;
        [apply String.eqb_eq in He; subst s; reflexivity|].
      simpl in H.
      destruct (net.ParseIP s) as [ip|] eqn:Hparse.
      - eapply denylisted_denied; eauto.
      - rewrite isUpstreamIPSafe_unfold. unfold isUpstreamIPSafe_body.
        rewrite Hparse. destruct (String.eqb s ""); reflexivity. }
    split; [exact Hdeny|].
    destruct (isUpstreamIPSafe_reason s) as [[_ Hr]|Hallow]; [exact Hr|].
    rewrite Hallow in Hdeny. discriminate.
  - unfold globally_routable. intros H.
    destruct (net.ParseIP s) as [ip|] eqn:Hparse; [|discriminate].
    apply andb_true_iff in H as [Hd Hg]. apply negb_true_iff in Hd.
    rewrite (isUpstreamIPSafe_by_address s ip Hparse).
    + unfold denylisted in Hd. unfold verdict_of_address.
      repeat (apply orb_false_iff in Hd as [Hd ?]).
      rewrite Hd. repeat match goal with H : _ = false |- _ => rewrite H; clear H end.
      reflexivity.
    + unfold outside_reserved_zero_block in Hg.
      destruct (isNil (net.To4 ip)); [|reflexivity].
      cbn [negb orb] in Hg. rewrite andb_true_l.
      destruct (HasPrefix s "::ffff:") eqn:Hp; [|reflexivity].
      rewrite (ParseIP_leading_ellipsis s ip Hparse) in Hg; [discriminate|].
      destruct s as [|c1 s]; [discriminate|]. simpl in Hp.
      apply andb_true_iff in Hp as [Hc1 Hp].
      destruct s as [|c2 s]; [discriminate|].
      apply andb_true_iff in Hp as [Hc2 _].
      simpl. rewrite Hc1, Hc2. reflexivity.
Qed.

Lemma isUpstreamIPSafe_classification_witness :
  (fst (isUpstreamIPSafe "192.168.1.1") = false
   /\ snd (isUpstreamIPSafe "192.168.1.1") <> "")
  /\ isUpstreamIPSafe "2607:f8b0:4005:805::200e" = (true, "").
Proof.
  split.
  - apply (proj1 (isUpstreamIPSafe_classification "192.168.1.1")).
    vm_compute. reflexivity.
  - apply (proj2 (isUpstreamIPSafe_classification "2607:f8b0:4005:805::200e")).
    vm_compute. reflexivity.
Defined.

(** The verdicts for some well-known addresses. *)
Example isUpstreamIPSafe_scenarios :
  isUpstreamIPSafe "127.0.0.1" = (false, "localhost/loopback address is blocked")
  /\ isUpstreamIPSafe "8.8.8.8" = (true, "")
  /\ isUpstreamIPSafe "93.184.216.34" = (true, "")
  /\ isUpstreamIPSafe "192.168.1.1"
     = (false, "private network address is blocked (RFC1918)")
  /\ isUpstreamIPSafe "2001:db8::1"
     = (false, "documentation/test network range is blocked")
  /\ isUpstreamIPSafe "fe80::1" = (false, "link-local address is blocked")
  /\ isUpstreamIPSafe "ff02::1" = (false, "multicast address is blocked")
  /\ isUpstreamIPSafe "::" = (false, "unspecified address is blocked")
  /\ isUpstreamIPSafe "not-an-address" = (false, "invalid IP address").
Proof. repeat split; vm_compute; reflexivity. Qed.

(** *** IPv4 literals and their IPv4-mapped form *)

Lemma digit_not_special (c : ascii) :
  between "0" "9" c = true ->
  Ascii.eqb c "." = false /\ Ascii.eqb c ":" = false /\ Ascii.eqb c "%" = false.
Proof.
  intros H. repeat split.
  - destruct (Ascii.eqb_spec c ".") as [He|_]; [|reflexivity].
    rewrite He in H. vm_compute in H. discriminate.
  - destruct (Ascii.eqb_spec c ":") as [He|_]; [|reflexivity].
    rewrite He in H. vm_compute in H. discriminate.
  - destruct (Ascii.eqb_spec c "%") as [He|_]; [|reflexivity].
    rewrite He in H. vm_compute in H. discriminate.
Qed.

Lemma digit_value (c : ascii) :
  between "0" "9" c = true ->
  netip.hexDigit c = Some (byte_of c - 48) /\ 0 <= byte_of c - 48 <= 9.
Proof.
  intros H. unfold netip.hexDigit. rewrite H. split; [reflexivity|].
  unfold between in H. change (byte_of "0") with 48 in H.
  change (byte_of "9") with 57 in H. lia.
Qed.

(** An accepted IPv4 literal holds digits and dots only. *)
Lemma parseIPv4Fields_loop_no_zone (s : string) :
  forall i prev val pos digLen fields out,
    netip.parseIPv4Fields_loop s i prev val pos digLen fields = Some out ->
    netip.cutByte s "%" = None.
Proof.
  induction s as [|c s IH]; intros i prev val pos digLen fields out H;
    [reflexivity|]. simpl in H |- *.
  destruct (between "0" "9" c) eqn:Hd.
  - destruct (digit_not_special c Hd) as (_ & _ & ->).
    destruct ((digLen =? 1) && (val =? 0)); [discriminate|].
    destruct (255 <? _); [discriminate|].
    apply IH in H. rewrite H. reflexivity.
  - destruct (Ascii.eqb_spec c ".") as [->|_]; [|discriminate].
    change (Ascii.eqb "." "%") with false. cbv iota.
    destruct ((i =? 0) || isEmpty s || Ascii.eqb prev "."); [discriminate|].
    destruct (pos =? 3)%nat; [discriminate|].
    apply IH in H. rewrite H. reflexivity.
Qed.

(** Before its first dot an accepted IPv4 literal holds digits, so
    [ParseAddr] hands it to [parseIPv4]. *)
Lemma ParseAddr_scan_IPv4 (whole s : string) :
  forall i prev val digLen fields out,
    netip.parseIPv4Fields_loop s i prev val 0%nat digLen fields = Some out ->
    netip.ParseAddr_scan whole s = netip.parseIPv4 whole.
Proof.
  induction s as [|c s IH]; intros i prev val digLen fields out H; simpl in H.
  - discriminate.
  - simpl. destruct (between "0" "9" c) eqn:Hd.
    + destruct (digit_not_special c Hd) as (-> & -> & ->).
      destruct ((digLen =? 1) && (val =? 0)); [discriminate|].
      destruct (255 <? _); [discriminate|]. eauto.
    + destruct (Ascii.eqb c "."); [reflexivity|discriminate].
Qed.

(** The first octet of an accepted IPv4 literal is one to three digits and
    a dot, which the IPv6 parser reads as a group followed by a dot. *)
Lemma hexGroup_loop_IPv4 (s : string) :
  forall i prev val digLen fields out off acc,
    netip.parseIPv4Fields_loop s i prev val 0%nat digLen fields = Some out ->
    (digLen = 0 -> i = 0) ->
    off = digLen ->
    (digLen = 0 /\ acc = 0 /\ val = 0)
    \/ (digLen = 1 /\ 0 <= acc <= 9 /\ 0 <= val <= 9)
    \/ (digLen = 2 /\ 0 <= acc <= 255 /\ 10 <= val <= 99)
    \/ (digLen = 3 /\ 0 <= acc <= 4095 /\ 100 <= val <= 255) ->
    exists off' acc' rest,
      netip.hexGroup_loop s off acc = Some (off', acc', String "." rest)
      /\ 0 < off'.
Proof.
  induction s as [|c s IH]; intros i prev val digLen fields out off acc H Hi Hoff Hinv;
    simpl in H; [discriminate|].
  simpl. destruct (between "0" "9" c) eqn:Hd.
  - destruct (digit_value c Hd) as [-> Hrange].
    change (byte_of "0") with 48 in H.
    destruct ((digLen =? 1) && (val =? 0)) eqn:Hlead; [discriminate|].
    destruct (255 <? val * 10 + byte_of c - 48) eqn:Hbig; [discriminate|].
    rewrite Z.shiftl_mul_pow2 by lia.
    change (2 ^ 4) with 16. change (2 ^ 32) with 4294967296.
    assert (digLen <= 2) as Hlen by lia.
    rewrite Z.mod_small by lia.
    assert ((3 <? off) = false) as -> by lia.
    assert ((65535 <? acc * 16 + (byte_of c - 48)) = false) as -> by lia.
    eapply IH; [exact H|lia|lia|lia].
  - destruct (Ascii.eqb_spec c ".") as [->|_]; [|discriminate].
    change (netip.hexDigit ".") with (@None Z).
    destruct (i =? 0) eqn:Hi0; [discriminate|].
    exists off, acc, s. split; [reflexivity|]. lia.
Qed.

Lemma ParseIP_IPv4 (s : string) (fields : list Z) :
  netip.parseIPv4Fields s [0; 0; 0; 0] = Some fields ->
  net.ParseIP s = Some (netip.v4InV6Prefix ++ fields).
Proof.
  intros H. unfold net.ParseIP, netip.ParseAddr.
  rewrite (ParseAddr_scan_IPv4 s s _ _ _ _ _ _ H).
  unfold netip.parseIPv4. rewrite H. reflexivity.
Qed.

Lemma hexGroup_loop_ffff (r : string) :
  netip.hexGroup_loop ("ffff:" +:+ r) 0 0 = Some (4, 65535, String ":" r).
Proof. reflexivity. Qed.

Lemma cutByte_mapped (s : string) :
  netip.cutByte s "%" = None -> netip.cutByte ("::ffff:" +:+ s) "%" = None.
Proof.
  intros H.
  change ("::ffff:" +:+ s)
    with (String ":" (String ":" (String "f" (String "f" (String "f" (String "f"
            (String ":" s))))))).
  simpl. rewrite H. reflexivity.
Qed.

(** A turn of the loop that reads a group followed by [":"] and one more
    byte that is not [":"]. *)
Lemma parseIPv6_loop_group (fuel : nat) (i e : Z) (ip : list Z) (s : string)
    (off acc : Z) (c1 : ascii) (s2 : string) :
  i < 16 ->
  netip.hexGroup_loop s 0 0 = Some (off, acc, String ":" (String c1 s2)) ->
  0 < off -> Ascii.eqb c1 ":" = false ->
  netip.parseIPv6_loop (S fuel) i e ip s
  = netip.parseIPv6_loop fuel (i + 2) e
      (<[Z.to_nat (i + 1) := uint8 acc]> (<[Z.to_nat i := uint8 (Z.shiftr acc 8)]> ip))
      (String c1 s2).
Proof.
  intros Hi Hhex Hoff Hc1. cbn [netip.parseIPv6_loop].
  assert ((16 <=? i) = false) as -> by lia.
  unfold netip.parseIPv6_turn. rewrite Hhex.
  assert ((off =? 0) = false) as -> by lia.
  change (HasPrefix (String ":" (String c1 s2)) ".") with false. cbv iota.
  change (Ascii.eqb ":" ":") with true. cbn [negb]. cbv iota.
  rewrite Hc1. reflexivity.
Qed.

(** A turn of the loop that reads a trailing IPv4 address. *)
Lemma parseIPv6_loop_trailing_IPv4 (fuel : nat) (i e : Z) (ip : list Z) (s : string)
    (off acc : Z) (rest : string) (fields : list Z) :
  i < 16 ->
  netip.hexGroup_loop s 0 0 = Some (off, acc, String "." rest) ->
  0 < off -> 0 <= e -> i + 4 <= 16 ->
  netip.parseIPv4Fields s (take 4 (drop (Z.to_nat i) ip)) = Some fields ->
  netip.parseIPv6_loop (S fuel) i e ip s = Some (i + 4, e, netip.write4 ip i fields, "").
Proof.
  intros Hi Hhex Hoff He Hroom Hv4. cbn [netip.parseIPv6_loop].
  assert ((16 <=? i) = false) as -> by lia.
  unfold netip.parseIPv6_turn. rewrite Hhex.
  assert ((off =? 0) = false) as -> by lia.
  change (HasPrefix (String "." rest) ".") with true. cbv iota.
  assert ((e <? 0) = false) as -> by lia. cbn [andb].
  assert ((16 <? i + 4) = false) as -> by lia.
  rewrite Hv4. reflexivity.
Qed.

(** The two turns of the loop on the text behind the leading ["::"]: the
    group [ffff], then the trailing IPv4 address. *)
Lemma parseIPv6_loop_mapped (s : string) (a b c d : Z) :
  netip.parseIPv4Fields s [0; 0; 0; 0] = Some [a; b; c; d] ->
  netip.parseIPv6_loop 8 0 0 netip.zeros16 ("ffff:" +:+ s)
  = Some (6, 0, [255; 255; a; b; c; d; 0; 0; 0; 0; 0; 0; 0; 0; 0; 0], "").
Proof.
  intros H.
  destruct (hexGroup_loop_IPv4 s 0 "000" 0 0 [0; 0; 0; 0] _ 0 0 H)
    as (off & acc & rest & Hhex & Hoff); [reflexivity|reflexivity|lia|].
  destruct s as [|c1 s2]; [discriminate|].
  assert (Ascii.eqb c1 ":" = false) as Hc1.
  { unfold netip.parseIPv4Fields in H. simpl in H.
    destruct (between "0" "9" c1) eqn:Hd; [apply digit_not_special; exact Hd|].
    destruct (Ascii.eqb_spec c1 ".") as [->|_]; [reflexivity|discriminate]. }
  rewrite (parseIPv6_loop_group 7 0 0 netip.zeros16 _ 4 65535 c1 s2);
    [|lia|apply hexGroup_loop_ffff|lia|exact Hc1].
  rewrite (parseIPv6_loop_trailing_IPv4 6 _ 0 _ _ off acc rest [a; b; c; d]);
    [reflexivity|lia|exact Hhex|lia|lia|lia|exact H].
Qed.

Lemma ParseIP_IPv4_mapped (s : string) (fields : list Z) :
  netip.parseIPv4Fields s [0; 0; 0; 0] = Some fields ->
  net.ParseIP ("::ffff:" +:+ s) = Some (netip.v4InV6Prefix ++ fields).
Proof.
  intros H.
  pose proof (parseIPv4Fields_loop_no_zone _ _ _ _ _ _ _ _ H) as Hzone.
  pose proof (parseIPv4Fields_loop_length _ _ _ _ _ _ _ _ H) as Hlen.
  four_elements Hlen fields.
  unfold net.ParseIP, netip.ParseAddr.
  change (netip.ParseAddr_scan ("::ffff:" +:+ s) ("::ffff:" +:+ s))
    with (netip.parseIPv6 ("::ffff:" +:+ s)).
  unfold netip.parseIPv6. rewrite (cutByte_mapped s Hzone).
  change (HasPrefix ("::ffff:" +:+ s) "::") with true. cbv iota.
  change (skipn_string 2 ("::ffff:" +:+ s)) with ("ffff:" +:+ s).
  change (isEmpty ("ffff:" +:+ s)) with false. cbn [andb]. cbv iota.
  rewrite (parseIPv6_loop_mapped s _ _ _ _ H).
  reflexivity.
Qed.

(** An IPv4 literal and its IPv4-mapped form get the same verdict, reason
    included. *)
Lemma isUpstreamIPSafe_IPv4_mapped (s : string) (fields : list Z) :
  netip.parseIPv4Fields s [0; 0; 0; 0] = Some fields ->
  isUpstreamIPSafe ("::ffff:" +:+ s) = isUpstreamIPSafe s.
Proof.
  intros H.
  pose proof (parseIPv4Fields_loop_length _ _ _ _ _ _ _ _ H) as Hlen.
  four_elements Hlen fields.
  rewrite (isUpstreamIPSafe_by_address _ _ (ParseIP_IPv4_mapped s _ H)) by reflexivity.
  rewrite (isUpstreamIPSafe_by_address _ _ (ParseIP_IPv4 s _ H)) by reflexivity.
  reflexivity.
Qed.

(** C3.  For every IPv4 literal a.b.c.d, the classifier allows the
    IPv4-mapped literal ::ffff:a.b.c.d exactly when it allows a.b.c.d. *)
Theorem IPv4_mapped_same_outcome (s : string) :
  IPv4_literal s = true ->
  fst (isUpstreamIPSafe ("::ffff:" +:+ s)) = fst (isUpstreamIPSafe s).
Proof.
  unfold IPv4_literal, netip.parseIPv4. intros H.
  destruct (netip.parseIPv4Fields s [0; 0; 0; 0]) as [fields|] eqn:Hv4;
    [|discriminate].
  rewrite (isUpstreamIPSafe_IPv4_mapped s fields Hv4). reflexivity.
Qed.

Lemma IPv4_mapped_same_outcome_witness :
  fst (isUpstreamIPSafe "::ffff:93.184.216.34") = fst (isUpstreamIPSafe "93.184.216.34").
Proof.
  apply (IPv4_mapped_same_outcome "93.184.216.34"). vm_compute. reflexivity.
Defined.

(** The reasons of the two comparisons with the metadata literals are
    never returned, whatever the input. *)
Lemma metadata_reasons_unreachable (s : string) :
  snd (isUpstreamIPSafe s) <> "AWS metadata service IP is blocked"
  /\ snd (isUpstreamIPSafe s) <> "GCP metadata service IPv6 is blocked".
Proof.
  rewrite isUpstreamIPSafe_unfold. unfold isUpstreamIPSafe_body.
  destruct (String.eqb s ""); [split; discriminate|].
  destruct (net.ParseIP s) as [ip|] eqn:Hparse; [|split; discriminate].
  destruct (net.IsLoopback ip); [split; discriminate|].
  destruct (net.IsUnspecified ip); [split; discriminate|].
  destruct (net.IsLinkLocalUnicast ip) eqn:Hl; [split; discriminate|].
  destruct (net.IsMulticast ip); [split; discriminate|].
  destruct (net.IsPrivate ip) eqn:Hp; [split; discriminate|].
  destruct (metadata_literals_denied_earlier s ip Hparse Hl Hp) as [-> ->].
  destruct (isNil (net.To4 ip) && negb (isNil (net.To16 ip))).
  - destruct (HasPrefix s "::ffff:").
    + destruct (isUpstreamIPSafe (TrimPrefix s "::ffff:")) as [[] reason];
        [destruct (_ || _)|]; split; discriminate.
    + destruct (_ || _); split; discriminate.
  - destruct (_ || _); split; discriminate.
Qed.

(** C4.  What the classifier returns for the cloud metadata addresses: both
    are denied, 169.254.169.254 as a link-local address and fd00:ec2::254
    as a private address, and neither reason mentions "metadata". *)
Theorem metadata_addresses_verdict :
  isUpstreamIPSafe "169.254.169.254" = (false, "link-local address is blocked")
  /\ Contains (snd (isUpstreamIPSafe "169.254.169.254")) "metadata" = false
  /\ isUpstreamIPSafe "fd00:ec2::254"
     = (false, "private network address is blocked (RFC1918)")
  /\ Contains (snd (isUpstreamIPSafe "fd00:ec2::254")) "metadata" = false.
Proof. repeat split; vm_compute; reflexivity. Qed.

(** C8.  A denied IPv4-mapped literal ::ffff:a.b.c.d carries the reason of
    a.b.c.d itself, without the prefix that notes the mapped form. *)
Theorem IPv4_mapped_reason_not_prefixed (s : string) :
  IPv4_literal s = true ->
  fst (isUpstreamIPSafe ("::ffff:" +:+ s)) = false ->
  snd (isUpstreamIPSafe ("::ffff:" +:+ s)) = snd (isUpstreamIPSafe s)
  /\ HasPrefix (snd (isUpstreamIPSafe ("::ffff:" +:+ s)))
       "IPv4-mapped IPv6 address blocked: " = false.
Proof.
  unfold IPv4_literal, netip.parseIPv4. intros H Hdeny.
  destruct (netip.parseIPv4Fields s [0; 0; 0; 0]) as [fields|] eqn:Hv4;
    [|discriminate].
  rewrite (isUpstreamIPSafe_IPv4_mapped s fields Hv4). split; [reflexivity|].
  pose proof (parseIPv4Fields_loop_length _ _ _ _ _ _ _ _ Hv4) as Hlen.
  four_elements Hlen fields.
  rewrite (isUpstreamIPSafe_by_address _ _ (ParseIP_IPv4 s _ Hv4)) by reflexivity.
  unfold verdict_of_address.
  repeat match goal with
         | |- context [if ?b then _ else _] => destruct b; [reflexivity|]
         end.
  reflexivity.
Qed.

Lemma IPv4_mapped_reason_not_prefixed_witness :
  snd (isUpstreamIPSafe "::ffff:10.0.0.5") = snd (isUpstreamIPSafe "10.0.0.5")
  /\ HasPrefix (snd (isUpstreamIPSafe "::ffff:10.0.0.5"))
       "IPv4-mapped IPv6 address blocked: " = false.
Proof.
  apply (IPv4_mapped_reason_not_prefixed "10.0.0.5"); vm_compute; reflexivity.
Defined.

(** The verdict for ::ffff:10.0.0.5 is the one of the private address
    10.0.0.5, reason included. *)
Example IPv4_mapped_private :
  isUpstreamIPSafe "::ffff:10.0.0.5"
  = (false, "private network address is blocked (RFC1918)").
Proof. vm_compute. reflexivity. Qed.

(** The prefix is only ever put before the reason of a text that is not an
    IPv4-mapped address. *)
Example prefixed_reason_not_mapped :
  isUpstreamIPSafe "::ffff:1:2:3"
  = (false, "IPv4-mapped IPv6 address blocked: invalid IP address")
  /\ (net.To4 <$> net.ParseIP "::ffff:1:2:3") = Some None.
Proof. split; vm_compute; reflexivity. Qed.

(** ** Properties of the attribute extractor *)

Lemma upstream_attributes_extract (value : structpb.Value) :
  extractUpstreamIP (upstream_attributes value)
  = let upstreamAddr := structpb.GetStringValue value in
    if negb (String.eqb upstreamAddr "") then Split upstreamAddr ":" !!! 0%nat else "".
Proof.
  unfold extractUpstreamIP, upstream_attributes, index.
  rewrite lookup_singleton_eq. cbn [structpb.Fields].
  rewrite lookup_singleton_eq. reflexivity.
Qed.

Lemma string_append_nil_r (s : string) : s +:+ "" = s.
Proof.
  induction s as [|c s IH]; [reflexivity|].
  change (String c (s +:+ "") = String c s). rewrite IH. reflexivity.
Qed.

Lemma string_of_list_ascii_snoc (l : list ascii) (c : ascii) (s : string) :
  string_of_list_ascii (l ++ [c]) +:+ s = string_of_list_ascii l +:+ String c s.
Proof.
  induction l as [|x l IH]; [reflexivity|].
  change (String x (string_of_list_ascii (l ++ [c]) +:+ s)
          = String x (string_of_list_ascii l +:+ String c s)).
  rewrite IH. reflexivity.
Qed.

Lemma Contains_colon_cons (c : ascii) (s : string) :
  Contains (String c s) ":" = false ->
  Ascii.eqb c ":" = false /\ Contains s ":" = false.
Proof.
  cbn [Contains HasPrefix]. intros H. apply orb_false_iff in H as [H1 H2].
  rewrite andb_true_r in H1. auto.
Qed.

(** [Split] returns at least one field, so that taking its first element
    cannot go out of range. *)
Lemma Split_loop_nonempty (s sep : string) :
  forall skip cur, Split_loop s sep skip cur <> [].
Proof.
  induction s as [|c s IH]; intros skip cur; cbn [Split_loop]; [discriminate|].
  destruct skip; [|apply IH].
  destruct (HasPrefix (String c s) sep); [discriminate|apply IH].
Qed.

(** Splitting on [":"] gives first the text before the first colon. *)
Lemma Split_loop_first_field (host port : string) :
  forall cur,
    Contains host ":" = false ->
    exists fields,
      Split_loop (host +:+ String ":" port) ":" 0 cur
      = (string_of_list_ascii (rev cur) +:+ host) :: fields.
Proof.
  induction host as [|c host IH]; intros cur Hc.
  - eexists. change ("" +:+ String ":" port) with (String ":" port).
    cbn [Split_loop HasPrefix]. change (Ascii.eqb ":" ":") with true.
    cbn [andb]. rewrite string_append_nil_r. reflexivity.
  - apply Contains_colon_cons in Hc as [Hc Hhost].
    change (String c host +:+ String ":" port) with (String c (host +:+ String ":" port)).
    cbn [Split_loop HasPrefix]. rewrite Hc. cbn [andb].
    destruct (IH (c :: cur) Hhost) as [fields ->].
    exists fields. cbn [rev]. rewrite string_of_list_ascii_snoc. reflexivity.
Qed.

(** For a value "host:port" whose host has no colon (an IPv4 address or a
    name) the extractor returns the host. *)
Lemma extractUpstreamIP_host_port (host port : string) :
  Contains host ":" = false ->
  extractUpstreamIP (upstream_attributes (structpb.StringValue (host +:+ String ":" port)))
  = host.
Proof.
  intros Hc. rewrite upstream_attributes_extract. cbn [structpb.GetStringValue].
  cbv zeta.
  assert (String.eqb (host +:+ String ":" port) "" = false) as ->.
  { destruct host; reflexivity. }
  cbn [negb]. unfold Split. cbn [isEmpty].
  destruct (Split_loop_first_field host port [] Hc) as [fields ->].
  reflexivity.
Qed.

(** With no namespace, no field, a nil or non-string value or an empty value
    the extractor returns the empty text. *)
Lemma extractUpstreamIP_absent :
  extractUpstreamIP None = ""
  /\ (forall attributes,
        index attributes "envoy.filters.http.ext_proc" = None ->
        extractUpstreamIP (Some attributes) = "")
  /\ (forall attributes filterAttributes,
        index attributes "envoy.filters.http.ext_proc" = Some filterAttributes ->
        match structpb.Fields filterAttributes with
        | None => True
        | Some fields =>
            match index fields "upstream.address" with
            | None => True
            | Some upstream => structpb.GetStringValue upstream = ""
            end
        end ->
        extractUpstreamIP (Some attributes) = "").
Proof.
  split; [reflexivity|]. split.
  - intros attributes H. unfold extractUpstreamIP. rewrite H. reflexivity.
  - intros attributes filterAttributes H Hf. unfold extractUpstreamIP. rewrite H.
    destruct (structpb.Fields filterAttributes) as [fields|]; [|reflexivity].
    unfold index in Hf.
    destruct (fields !! "upstream.address") as [[upstream|]|]; try reflexivity.
    rewrite Hf. reflexivity.
Qed.

(** C5.  What the extractor returns for the socket address of an IPv6
    upstream: the text before the first colon, which is not the host. *)
Theorem extractUpstreamIP_IPv6_socket_address :
  extractUpstreamIP
    (upstream_attributes (structpb.StringValue "[2001:4860:4860::8888]:443"))
  = "[2001"
  /\ extractUpstreamIP
       (upstream_attributes (structpb.StringValue "2001:4860:4860::8888"))
     = "2001"
  /\ isUpstreamIPSafe "[2001" = (false, "invalid IP address")
  /\ isUpstreamIPSafe "2001:4860:4860::8888" = (true, "").
Proof.
  rewrite !upstream_attributes_extract. repeat split; vm_compute; reflexivity.
Qed.

(** ** Properties of the stream session *)

Lemma wire_app (l1 l2 : list event) : wire (l1 ++ l2) = wire l1 ++ wire l2.
Proof. unfold wire. apply List.filter_app. Qed.

Lemma sent_app (l1 l2 : list event) : sent (l1 ++ l2) = sent l1 ++ sent l2.
Proof.
  induction l1 as [|ev l1 IH]; [reflexivity|].
  destruct ev; cbn [app sent]; rewrite IH; reflexivity.
Qed.

Lemma isUpstreamIPSafe_empty : isUpstreamIPSafe "" = (false, "empty IP address").
Proof. reflexivity. Qed.

(** The verdict of a turn is the one of the vocabulary. *)
Lemma decide_session_verdict (req : ProcessingRequest) :
  exists logged,
    decide req = (extractUpstreamIP req.(Attributes),
                  fst (session_verdict (extractUpstreamIP req.(Attributes))),
                  snd (session_verdict (extractUpstreamIP req.(Attributes))),
                  logged)
    /\ wire logged = [] /\ sent logged = [].
Proof.
  unfold decide, session_verdict.
  destruct (String.eqb (extractUpstreamIP (Attributes req)) ""); cbn [negb].
  - eexists. split; [reflexivity|]. split; reflexivity.
  - destruct (isUpstreamIPSafe (extractUpstreamIP (Attributes req))) as [isSafe reason].
    eexists. split; [reflexivity|]. split; reflexivity.
Qed.

Lemma session_verdict_allowed (upstreamIP : string) :
  fst (session_verdict upstreamIP) = fst (isUpstreamIPSafe upstreamIP).
Proof.
  unfold session_verdict.
  destruct (String.eqb_spec upstreamIP "") as [->|_]; reflexivity.
Qed.

(** On the stream a header-phase turn is one receive and one send, of the
    response that the verdict asks for. *)
Lemma handle_header_phase (req : ProcessingRequest) (sendErr : option error) :
  header_phase req = true ->
  wire (handle req sendErr) = [EvRecv req; EvSend (Some (response_to req))]
  /\ sent (handle req sendErr) = [Some (response_to req)].
Proof.
  intros Hh. unfold handle.
  destruct (decide_session_verdict req) as (logged & -> & Hw & Hs).
  unfold respond, response_to. unfold header_phase in Hh.
  rewrite <- session_verdict_allowed.
  destruct (Request req) as [[]|]; try discriminate.
  destruct (fst (session_verdict _)); cbn [negb];
    cbn [app wire sent List.filter on_stream];
    rewrite wire_app, sent_app, Hw, Hs; destruct sendErr; split; reflexivity.
Qed.

(** On the stream a turn of any other phase is one receive and one send of
    a nil response. *)
Lemma handle_other_phase (req : ProcessingRequest) (sendErr : option error) :
  header_phase req = false ->
  wire (handle req sendErr) = [EvRecv req; EvSend None]
  /\ sent (handle req sendErr) = [None].
Proof.
  intros Hh. unfold handle.
  destruct (decide_session_verdict req) as (logged & -> & Hw & Hs).
  unfold respond. unfold header_phase in Hh.
  destruct (Request req) as [[]|]; try discriminate;
    cbn [app wire sent List.filter on_stream];
    rewrite wire_app, sent_app, Hw, Hs; destruct sendErr; split; reflexivity.
Qed.

Lemma Process_arrivals_app (msgs : list (ProcessingRequest * option error))
    (rest : list turn) :
  Process (arrivals msgs ++ rest)
  = (concat ((fun m => handle m.1 m.2) <$> msgs) ++ fst (Process rest),
     snd (Process rest)).
Proof.
  induction msgs as [|[req sendErr] msgs IH].
  - cbn. destruct (Process rest); reflexivity.
  - cbn [arrivals fmap list_fmap app Process concat fst snd] in *.
    unfold arrivals in IH. rewrite IH. rewrite app_assoc. reflexivity.
Qed.

Lemma Process_arrivals (msgs : list (ProcessingRequest * option error)) :
  Process (arrivals msgs) = (concat ((fun m => handle m.1 m.2) <$> msgs), Blocked).
Proof.
  rewrite <- (app_nil_r (arrivals msgs)), Process_arrivals_app.
  cbn [Process fst snd]. rewrite app_nil_r. reflexivity.
Qed.

(** The response the session builds is the expected one, field by field. *)
Lemma response_to_expected (req : ProcessingRequest) :
  response_to req = expected_response req.
Proof.
  unfold response_to, expected_response, session_verdict.
  destruct (fst (isUpstreamIPSafe (extractUpstreamIP (Attributes req)))); [reflexivity|].
  destruct (String.eqb (extractUpstreamIP (Attributes req)) ""); reflexivity.
Qed.

(** C2.  On a stream of N header-phase requests followed by the end of the
    stream, the session receives and sends in strict alternation: each
    request is followed, before the next one is received, by one response,
    which is the request-headers response with status CONTINUE and no
    metadata when the classifier allows the extracted address, and
    otherwise the immediate response with status 403, the deny reason as
    body and the metadata blocked=true and reason=<reason>; N responses are
    sent in all and the session returns nil. *)
Theorem Process_pairs_responses (msgs : list (ProcessingRequest * option error)) :
  Forall (fun m => header_phase m.1 = true) msgs ->
  let run := Process (arrivals msgs ++ [RecvErr io_EOF]) in
  wire (fst run)
  = flat_map (fun m => [EvRecv m.1; EvSend (Some (expected_response m.1))]) msgs
  /\ sent (fst run) = (fun m => Some (expected_response m.1)) <$> msgs
  /\ length (sent (fst run)) = length msgs
  /\ snd run = Returned None.
Proof.
  intros Hall. cbv zeta. rewrite Process_arrivals_app.
  cbn [Process is_EOF fst snd]. rewrite app_nil_r.
  assert (wire (concat ((fun m => handle m.1 m.2) <$> msgs))
          = flat_map (fun m => [EvRecv m.1; EvSend (Some (expected_response m.1))]) msgs
          /\ sent (concat ((fun m => handle m.1 m.2) <$> msgs))
             = (fun m => Some (expected_response m.1)) <$> msgs) as [Hw Hs].
  { induction Hall as [|[req sendErr] msgs Hh _ [IHw IHs]]; [split; reflexivity|].
    cbn [fmap list_fmap concat flat_map fst snd] in Hh |- *.
    rewrite wire_app, sent_app.
    destruct (handle_header_phase req sendErr Hh) as [-> ->].
    rewrite response_to_expected, IHw, IHs. split; reflexivity. }
  rewrite Hw, Hs. repeat split. apply length_fmap.
Qed.

Lemma Process_pairs_responses_witness :
  let allowed := headers_request "93.184.216.34:443" in
  let denied := headers_request "192.168.1.1:80" in
  let run := Process (arrivals [(allowed, None);
                                (denied, Some (other_error "broken pipe"))]
                      ++ [RecvErr io_EOF]) in
  wire (fst run)
  = [EvRecv allowed; EvSend (Some Continue_response);
     EvRecv denied;
     EvSend (Some (Forbidden_response "private network address is blocked (RFC1918)"))]
  /\ snd run = Returned None.
Proof.
  intros allowed denied.
  destruct (Process_pairs_responses
              [(allowed, None); (denied, Some (other_error "broken pipe"))])
    as (Hw & _ & _ & Hr); [repeat constructor|].
  cbv zeta. split; [|exact Hr]. rewrite Hw.
  cbn [flat_map app fst]. unfold expected_response, allowed, denied, headers_request.
  cbn [Attributes]. rewrite !upstream_attributes_extract.
  vm_compute. reflexivity.
Defined.

(** Every message received is answered by one call of [srv.Send]. *)
Lemma sent_one_per_message (msgs : list (ProcessingRequest * option error)) :
  length (sent (concat ((fun m => handle m.1 m.2) <$> msgs))) = length msgs.
Proof.
  induction msgs as [|[req sendErr] msgs IH]; [reflexivity|].
  cbn [fmap list_fmap concat fst snd length] in IH |- *.
  rewrite sent_app, length_app, IH.
  destruct (header_phase req) eqn:Hh.
  - destruct (handle_header_phase req sendErr Hh) as [_ ->]. reflexivity.
  - destruct (handle_other_phase req sendErr Hh) as [_ ->]. reflexivity.
Qed.

(** C9, as amended.  The session meets a cancellation only at the [select]
    that precedes each blocking receive.  Found there, it makes the session
    return the context's error at once, with no further receive or send;
    this is also how a cancellation that lands while a message is handled
    ends, after the one response to that message.  A cancellation that
    lands while [srv.Recv] blocks is not seen by the [select]: it ends the
    session through the error that [srv.Recv] returns, with no further
    send, and the session returns nil for io.EOF and otherwise a status
    error with code Unknown, not the context's error.  In no case is
    anything that the stream presents later received or answered. *)
Theorem Process_cancellation (msgs : list (ProcessingRequest * option error))
    (c : cancellation) (ctxErr : error) (rest : list turn) :
  Process (canceled_stream msgs c ctxErr rest)
  = match c with
    | CancelBeforeSelect =>
        (fst (Process (arrivals msgs)), Returned (Some ctxErr))
    | CancelInRecv recvErr =>
        (fst (Process (arrivals msgs)),
         Returned (if is_EOF recvErr then None
                   else Some (status_Error codes_Unknown
                                ("cannot receive stream request: " +:+ Error recvErr))))
    | CancelInHandling req sendErr =>
        (fst (Process (arrivals msgs)) ++ handle req sendErr, Returned (Some ctxErr))
    end
  /\ length (sent (fst (Process (canceled_stream msgs c ctxErr rest))))
     = (length msgs + match c with CancelInHandling _ _ => 1 | _ => 0 end)%nat.
Proof.
  unfold canceled_stream. rewrite Process_arrivals_app, Process_arrivals.
  cbn [fst snd].
  pose proof (sent_one_per_message msgs) as Hn.
  destruct c as [|recvErr|req sendErr]; cbn [Process fst snd].
  - rewrite app_nil_r. split; [reflexivity|]. rewrite Hn. lia.
  - destruct (is_EOF recvErr); cbn [fst snd]; rewrite app_nil_r;
      (split; [reflexivity|]); rewrite Hn; lia.
  - rewrite app_nil_r. split; [reflexivity|].
    rewrite sent_app, length_app, Hn.
    destruct (header_phase req) eqn:Hh.
    + destruct (handle_header_phase req sendErr Hh) as [_ ->]. reflexivity.
    + destruct (handle_other_phase req sendErr Hh) as [_ ->]. reflexivity.
Qed.

(** C9, as stated, fails on a stream whose context is cancelled while
    [srv.Recv] blocks: the receive returns the transport's error and the
    session returns a status error with code Unknown, not the context's
    error. *)
Lemma Process_canceled_in_Recv :
  Process (canceled_stream []
             (CancelInRecv (status_Error codes_Canceled "context canceled"))
             context_Canceled [])
  = ([], Returned (Some (status_Error codes_Unknown
       "cannot receive stream request: rpc error: code = Canceled desc = context canceled")))
  /\ ~ ends_with_context_error []
        (CancelInRecv (status_Error codes_Canceled "context canceled"))
        context_Canceled [].
Proof.
  split; [reflexivity|]. unfold ends_with_context_error. intros [H _].
  vm_compute in H. discriminate H.
Qed.

(** C6.  For a request of a phase other than the request headers the
    session builds no response, logs the request, and still calls
    [srv.Send], with a nil response. *)
Theorem other_phase_sends_nil (req : ProcessingRequest) (sendErr : option error) :
  header_phase req = false ->
  wire (handle req sendErr) = [EvRecv req; EvSend None]
  /\ In (EvLog (log_Unexpected req.(Request))) (handle req sendErr).
Proof.
  intros Hh. split; [apply (handle_other_phase req sendErr Hh)|].
  unfold handle.
  destruct (decide_session_verdict req) as (logged & -> & _ & _).
  unfold respond. unfold header_phase in Hh.
  destruct (Request req) as [[]|]; try discriminate;
    right; apply in_or_app; right; left; reflexivity.
Qed.

Lemma other_phase_sends_nil_witness :
  wire (handle (body_request "93.184.216.34:443") None)
  = [EvRecv (body_request "93.184.216.34:443"); EvSend None]
  /\ In (EvLog (log_Unexpected (body_request "93.184.216.34:443").(Request)))
        (handle (body_request "93.184.216.34:443") None).
Proof.
  apply (other_phase_sends_nil (body_request "93.184.216.34:443") None).
  reflexivity.
Defined.

Lemma denyResponse_shape (reason : string) :
  (denyResponse reason).(Response)
  = Some (ProcessingResponse_ImmediateResponse
            {| ImmediateResponse_Status := Some {| HttpStatus_Code := 403 |};
               ImmediateResponse_Body := reason |})
  /\ metadata_field (denyResponse reason) "blocked" = Some (structpb.BoolValue true)
  /\ metadata_field (denyResponse reason) "reason" = Some (structpb.StringValue reason).
Proof.
  split; [reflexivity|].
  unfold metadata_field, denyResponse, index. cbn [DynamicMetadata].
  split.
  - rewrite lookup_insert_eq. reflexivity.
  - rewrite lookup_insert_ne by discriminate. rewrite lookup_insert_eq. reflexivity.
Qed.



(** The deny verdict of the session agrees with the classifier's reason
    whenever an address was extracted. *)
Lemma session_verdict_nonempty (upstreamIP : string) :
  upstreamIP <> "" -> session_verdict upstreamIP = isUpstreamIPSafe upstreamIP.
Proof.
  intros Hne. unfold session_verdict.
  destruct (String.eqb_spec upstreamIP ""); [contradiction|reflexivity].
Qed.



(** ** Further properties of the classifier *)

(** The loop keeps the address 16 bytes long, with or without an ellipsis. *)
Lemma parseIPv6_loop_length (turns : nat) :
  forall i e ip s i' e' ip' s',
    0 <= i -> length ip = 16%nat ->
    netip.parseIPv6_loop turns i e ip s = Some (i', e', ip', s') ->
    length ip' = 16%nat.
Proof.
  induction turns as [|turns IH]; intros i e ip s i' e' ip' s' Hi Hip H;
    cbn [netip.parseIPv6_loop] in H;
    (destruct (16 <=? i) eqn:Hlim; [injection H as <- <- <- <-; auto|]);
    [discriminate|].
  unfold netip.parseIPv6_turn in H.
  destruct (netip.hexGroup_loop s 0 0) as [[[off acc] rest]|]; [|discriminate].
  destruct (off =? 0); [discriminate|].
  destruct (HasPrefix rest ".").
  - destruct ((e <? 0) && negb (i =? 12)); [discriminate|].
    destruct (16 <? i + 4) eqn:Hroom; [discriminate|].
    destruct (netip.parseIPv4Fields _ _) as [fields|] eqn:Hf; [|discriminate].
    injection H as <- <- <- <-.
    apply write4_length; try lia.
    apply parseIPv4Fields_loop_length in Hf. rewrite Hf.
    rewrite length_take, length_drop. lia.
  - set (ip2 := <[Z.to_nat (i + 1):=_]> (<[Z.to_nat i:=_]> ip)) in H.
    assert (length ip2 = 16%nat) as Hip2
      by (unfold ip2; rewrite !length_insert; exact Hip).
    destruct rest as [|c s1]; [injection H as <- <- <- <-; auto|].
    destruct (negb (Ascii.eqb c ":")); [discriminate|].
    destruct s1 as [|c1 s2]; [discriminate|].
    destruct (Ascii.eqb c1 ":").
    + destruct (0 <=? e); [discriminate|].
      destruct (isEmpty s2); [injection H as <- <- <- <-; auto|].
      apply IH in H; auto; lia.
    + apply IH in H; auto; lia.
Qed.

Lemma parseIPv6_length (s : string) (a : list Z) (zone : string) :
  netip.parseIPv6 s = Some (netip.AddrFrom16 a zone) -> length a = 16%nat.
Proof.
  unfold netip.parseIPv6. intros H.
  destruct (match netip.cutByte s "%" with
            | Some (s0, zone0) => if isEmpty zone0 then None else Some (s0, zone0)
            | None => Some (s, "")
            end) as [[s0 zone0]|]; [|discriminate].
  destruct (HasPrefix s0 "::" && isEmpty _); [injection H as <- _; reflexivity|].
  destruct (netip.parseIPv6_loop _ _ _ _ _) as [[[[i e] ip'] s']|] eqn:Hloop;
    [|discriminate].
  apply parseIPv6_loop_length in Hloop; [|lia|reflexivity].
  destruct (negb (isEmpty s')); [discriminate|].
  destruct (i <? 16).
  - destruct (e <? 0); [discriminate|]. injection H as <- _.
    rewrite clear_length, shiftTail_length. exact Hloop.
  - destruct (0 <=? e); [discriminate|]. injection H as <- _. exact Hloop.
Qed.

Lemma parseIPv6_is_AddrFrom16 (s : string) (addr : netip.Addr) :
  netip.parseIPv6 s = Some addr -> exists a zone, addr = netip.AddrFrom16 a zone.
Proof.
  unfold netip.parseIPv6. intros H.
  repeat match type of H with
         | context [match ?x with _ => _ end] => destruct x; try discriminate
         end; injection H as <-; eauto.
Qed.

(** [ParseAddr] ends in one of its two parsers or in an error. *)
Lemma ParseAddr_scan_cases (s rest : string) :
  netip.ParseAddr_scan s rest = netip.parseIPv4 s
  \/ netip.ParseAddr_scan s rest = netip.parseIPv6 s
  \/ netip.ParseAddr_scan s rest = None.
Proof.
  induction rest as [|c rest IH]; cbn [netip.ParseAddr_scan]; [auto|].
  destruct (Ascii.eqb c "."); [auto|].
  destruct (Ascii.eqb c ":"); [auto|].
  destruct (Ascii.eqb c "%"); auto.
Qed.

(** A parsed address is 16 bytes long. *)
Lemma ParseIP_length (s : string) (ip : net.IP) :
  net.ParseIP s = Some ip -> length ip = 16%nat.
Proof.
  unfold net.ParseIP, netip.ParseAddr. intros H.
  destruct (ParseAddr_scan_cases s s) as [Hc|[Hc|Hc]]; rewrite Hc in H.
  - unfold netip.parseIPv4 in H.
    destruct (netip.parseIPv4Fields s [0; 0; 0; 0]) as [fields|] eqn:Hf; [|discriminate].
    apply parseIPv4Fields_loop_length in Hf. injection H as <-.
    cbn [length]. rewrite Hf. reflexivity.
  - destruct (netip.parseIPv6 s) as [addr|] eqn:Hp; [|discriminate].
    destruct (parseIPv6_is_AddrFrom16 s addr Hp) as (a & zone & ->).
    apply parseIPv6_length in Hp. cbn [netip.Zone netip.As16] in H.
    destruct (isEmpty zone); [|discriminate]. injection H as <-. exact Hp.
  - discriminate.
Qed.

(** A text that completes an address behind a leading ["::"] and one group
    is not an address by itself: read from the start and with no ellipsis,
    it leaves text unread or fills fewer than 16 bytes. *)
Lemma parseIPv6_loop_behind_group (turns : nat) :
  forall i ip2 r i2 e2 ip2',
    0 <= i ->
    netip.parseIPv6_loop turns (i + 2) 0 ip2 r = Some (i2, e2, ip2', "") ->
    i2 < 16 ->
    forall turns1 ip1 i1 e1 ip1' s1,
      netip.parseIPv6_loop turns1 i (-1) ip1 r = Some (i1, e1, ip1', s1) ->
      s1 <> "" \/ (i1 < 16 /\ e1 < 0).
Proof.
  induction turns as [|turns IH]; intros i ip2 r i2 e2 ip2' Hi H Hi2
    turns1 ip1 i1 e1 ip1' s1 H1; cbn [netip.parseIPv6_loop] in H;
    (destruct (16 <=? i + 2) eqn:Hlim; [injection H as <- <- <- <-; lia|]);
    [discriminate|].
  assert ((16 <=? i) = false) as Hlim1 by lia.
  destruct turns1 as [|turns1]; cbn [netip.parseIPv6_loop] in H1;
    rewrite Hlim1 in H1; [discriminate|].
  unfold netip.parseIPv6_turn in H, H1.
  destruct (netip.hexGroup_loop r 0 0) as [[[off acc] rest]|]; [|discriminate].
  destruct (off =? 0); [discriminate|].
  destruct (HasPrefix rest ".").
  - change ((0 <? 0) && negb (i + 2 =? 12)) with false in H. cbv iota in H.
    destruct (16 <? i + 2 + 4) eqn:Hroom; [discriminate|].
    assert (((-1 <? 0) && negb (i =? 12)) = true) as Hplace.
    { change (-1 <? 0) with true. cbn [andb]. apply negb_true_iff. lia. }
    rewrite Hplace in H1. discriminate.
  - destruct rest as [|c s2].
    + injection H as <- <- <-. injection H1 as <- <- <- <-. right. lia.
    + destruct (negb (Ascii.eqb c ":")); [discriminate|].
      destruct s2 as [|c1 s3]; [discriminate|].
      destruct (Ascii.eqb c1 ":").
      * change (0 <=? 0) with true in H. discriminate.
      * eapply (IH (i + 2)); [lia|exact H|exact Hi2|exact H1].
Qed.

Lemma HasPrefix_mapped_inv (s : string) :
  HasPrefix s "::ffff:" = true -> exists r, s = "::ffff:" +:+ r.
Proof.
  intros H.
  do 7 (destruct s as [|? s]; [discriminate|];
        cbn [HasPrefix] in H; apply andb_true_iff in H as [?%Ascii.eqb_eq H]; subst).
  exists s. reflexivity.
Qed.

Lemma TrimPrefix_mapped (r : string) : TrimPrefix ("::ffff:" +:+ r) "::ffff:" = r.
Proof. reflexivity. Qed.

Lemma cutByte_mapped_zone (s l z : string) :
  netip.cutByte s "%" = Some (l, z) ->
  netip.cutByte ("::ffff:" +:+ s) "%" = Some ("::ffff:" +:+ l, z).
Proof.
  intros H.
  change ("::ffff:" +:+ s)
    with (String ":" (String ":" (String "f" (String "f" (String "f" (String "f"
            (String ":" s))))))).
  simpl. rewrite H. reflexivity.
Qed.

(** The text behind the prefix ["::ffff:"] of a text that parses to an
    address that is not IPv4 does not parse. *)
Lemma ParseIP_behind_prefix (r : string) (ip : net.IP) :
  net.ParseIP ("::ffff:" +:+ r) = Some ip -> isNil (net.To4 ip) = true ->
  net.ParseIP r = None /\ r <> "".
Proof.
  intros H Hto4.
  assert (forall fields, netip.parseIPv4Fields r [0; 0; 0; 0] <> Some fields) as Hnot4.
  { intros fields Hf. rewrite (ParseIP_IPv4_mapped r fields Hf) in H.
    injection H as <-.
    pose proof (parseIPv4Fields_loop_length _ _ _ _ _ _ _ _ Hf) as Hlen.
    four_elements Hlen fields. discriminate Hto4. }
  unfold net.ParseIP, netip.ParseAddr in H.
  change (netip.ParseAddr_scan ("::ffff:" +:+ r) ("::ffff:" +:+ r))
    with (netip.parseIPv6 ("::ffff:" +:+ r)) in H.
  unfold netip.parseIPv6 in H.
  destruct (netip.cutByte r "%") as [[l z]|] eqn:Hcut;
    [rewrite (cutByte_mapped_zone r l z Hcut) in H
    |rewrite (cutByte_mapped r Hcut) in H].
  { (* a zone: the address keeps it and [ParseIP] refuses it *)
    exfalso. destruct z as [|cz z]; [discriminate|]. cbn [isEmpty] in H.
    destruct (HasPrefix ("::ffff:" +:+ l) "::" && isEmpty _); [discriminate|].
    destruct (netip.parseIPv6_loop _ _ _ _ _) as [[[[i e] ip'] s']|]; [|discriminate].
    destruct (negb (isEmpty s')); [discriminate|].
    destruct (i <? 16); [destruct (e <? 0)|destruct (0 <=? e)]; discriminate. }
  change (HasPrefix ("::ffff:" +:+ r) "::") with true in H. cbv iota in H.
  change (skipn_string 2 ("::ffff:" +:+ r)) with ("ffff:" +:+ r) in H.
  change (isEmpty ("ffff:" +:+ r)) with false in H. cbn [andb] in H. cbv iota in H.
  change (netip.parseIPv6_loop 8 0 0 netip.zeros16 ("ffff:" +:+ r))
    with (netip.parseIPv6_turn (netip.parseIPv6_loop 7) 0 0 netip.zeros16 ("ffff:" +:+ r))
    in H.
  unfold netip.parseIPv6_turn in H. rewrite hexGroup_loop_ffff in H.
  change (4 =? 0) with false in H. cbv iota in H.
  change (HasPrefix (String ":" r) ".") with false in H. cbv iota in H.
  change (negb (Ascii.eqb ":" ":")) with false in H. cbv iota zeta in H.
  destruct r as [|c1 r2]; [discriminate|]. split; [|discriminate].
  destruct (Ascii.eqb c1 ":") eqn:Hc1; [discriminate|].
  destruct (netip.parseIPv6_loop 7 _ 0 _ (String c1 r2))
    as [[[[i2 e2] ip2] s2]|] eqn:Hloop; [|discriminate].
  pose proof Hloop as Hinv.
  apply parseIPv6_loop_invariant in Hinv as [-> _];
    [|lia|lia|rewrite !length_insert; reflexivity].
  destruct s2 as [|? ?]; [|discriminate]. cbn [isEmpty negb] in H.
  destruct (i2 <? 16) eqn:Hi2; [|discriminate].
  (* the text by itself *)
  unfold net.ParseIP, netip.ParseAddr.
  destruct (ParseAddr_scan_cases (String c1 r2) (String c1 r2)) as [Hc|[Hc|Hc]];
    rewrite Hc; [| |reflexivity].
  - unfold netip.parseIPv4.
    destruct (netip.parseIPv4Fields (String c1 r2) [0; 0; 0; 0]) as [fields|] eqn:Hf;
      [|reflexivity].
    destruct (Hnot4 fields eq_refl).
  - unfold netip.parseIPv6. rewrite Hcut.
    assert (HasPrefix (String c1 r2) "::" = false) as ->.
    { cbn [HasPrefix]. rewrite Hc1. reflexivity. }
    cbn [andb]. cbv iota.
    destruct (netip.parseIPv6_loop 8 0 (-1) netip.zeros16 (String c1 r2))
      as [[[[i1 e1] ip1] s1]|] eqn:Hloop1; [|reflexivity].
    destruct (parseIPv6_loop_behind_group 7 0 _ _ _ _ _ ltac:(lia) Hloop ltac:(lia)
                8%nat _ _ _ _ _ Hloop1) as [Hs1|[Hi1 He1]].
    + destruct s1; [contradiction|reflexivity].
    + destruct (negb (isEmpty s1)); [reflexivity|].
      assert ((i1 <? 16) = true) as -> by lia.
      assert ((e1 <? 0) = true) as -> by lia. reflexivity.
Qed.

Lemma unparsed_denied (s : string) :
  net.ParseIP s = None ->
  isUpstreamIPSafe s
  = (false, if String.eqb s "" then "empty IP address" else "invalid IP address").
Proof.
  intros H. rewrite isUpstreamIPSafe_unfold. unfold isUpstreamIPSafe_body.
  rewrite H. destruct (String.eqb s ""); reflexivity.
Qed.

(** The recursive call of the classifier always answers "invalid IP
    address". *)
Lemma recursive_call_invalid (s : string) (ip : net.IP) :
  net.ParseIP s = Some ip -> isNil (net.To4 ip) = true ->
  HasPrefix s "::ffff:" = true ->
  isUpstreamIPSafe (TrimPrefix s "::ffff:") = (false, "invalid IP address").
Proof.
  intros H Hto4 Hp. destruct (HasPrefix_mapped_inv s Hp) as [r ->].
  rewrite TrimPrefix_mapped.
  destruct (ParseIP_behind_prefix r ip H Hto4) as [Hr Hne].
  rewrite (unparsed_denied r Hr).
  destruct (String.eqb_spec r ""); [contradiction|reflexivity].
Qed.

Lemma To16_parsed (s : string) (ip : net.IP) :
  net.ParseIP s = Some ip -> isNil (net.To16 ip) = false.
Proof.
  intros H. apply ParseIP_length in H. unfold net.To16. rewrite H. reflexivity.
Qed.

(** The verdict for a non-IPv4 address written with the prefix. *)
Lemma prefixed_verdict (s : string) (ip : net.IP) :
  net.ParseIP s = Some ip -> isNil (net.To4 ip) = true ->
  HasPrefix s "::ffff:" = true ->
  isUpstreamIPSafe s
  = if net.IsLoopback ip || net.IsUnspecified ip || net.IsLinkLocalUnicast ip
       || net.IsMulticast ip || net.IsPrivate ip
    then verdict_of_address ip
    else (false, "IPv4-mapped IPv6 address blocked: invalid IP address").
Proof.
  intros H Hto4 Hp. rewrite isUpstreamIPSafe_unfold. unfold isUpstreamIPSafe_body.
  rewrite (ParseIP_nonempty s ip H), H. unfold verdict_of_address.
  destruct (net.IsLoopback ip); [reflexivity|].
  destruct (net.IsUnspecified ip); [reflexivity|].
  destruct (net.IsLinkLocalUnicast ip) eqn:Hl; [reflexivity|].
  destruct (net.IsMulticast ip); [reflexivity|].
  destruct (net.IsPrivate ip) eqn:Hpr; [reflexivity|].
  destruct (metadata_literals_denied_earlier s ip H Hl Hpr) as [-> ->].
  rewrite Hto4, (To16_parsed s ip H), Hp.
  rewrite (recursive_call_invalid s ip H Hto4 Hp). reflexivity.
Qed.

Lemma verdict_of_address_allowed (ip : net.IP) :
  fst (verdict_of_address ip) = negb (denylisted ip).
Proof.
  unfold verdict_of_address, denylisted.
  repeat match goal with
         | |- context [if ?b then _ else _] => destruct b; [reflexivity|]
         end.
  reflexivity.
Qed.

(** X1.  A verdict is an allowance exactly when its reason is empty: every
    denial carries a reason and no allowance does. *)
Theorem verdict_reason_iff (s : string) :
  (fst (isUpstreamIPSafe s) = true <-> snd (isUpstreamIPSafe s) = "")
  /\ (fst (isUpstreamIPSafe s) = false <-> snd (isUpstreamIPSafe s) <> "").
Proof.
  destruct (isUpstreamIPSafe_reason s) as [[Hf Hs]|Heq].
  - rewrite Hf. split; split; intros H; try discriminate; try contradiction; auto.
  - rewrite Heq. split; split; intros H; try discriminate; try contradiction; auto.
Qed.

(** X2.  The classifier allows a text exactly when the text parses, its
    address is in no denylisted range, and it is not a non-IPv4 address
    written with the prefix "::ffff:". *)
Theorem allowed_exactly (s : string) :
  fst (isUpstreamIPSafe s) = allowed_text s.
Proof.
  unfold allowed_text.
  destruct (net.ParseIP s) as [ip|] eqn:H; [|rewrite (unparsed_denied s H); reflexivity].
  destruct (isNil (net.To4 ip) && HasPrefix s "::ffff:") eqn:Hm.
  - apply andb_true_iff in Hm as [Hto4 Hp].
    rewrite (prefixed_verdict s ip H Hto4 Hp), andb_false_r.
    destruct (_ || _) eqn:Hearly; [|reflexivity].
    rewrite verdict_of_address_allowed. unfold denylisted.
    rewrite Hearly. reflexivity.
  - rewrite (isUpstreamIPSafe_by_address s ip H Hm), andb_true_r.
    apply verdict_of_address_allowed.
Qed.

(** X3.  A text that starts with "::ffff:" and parses to an address that is
    not IPv4 is always denied, and the recursive call on the text behind the
    prefix always answers "invalid IP address": the recursion is never more
    than one call deep. *)
Theorem prefixed_text_denied (s : string) (ip : net.IP) :
  net.ParseIP s = Some ip -> isNil (net.To4 ip) = true ->
  HasPrefix s "::ffff:" = true ->
  fst (isUpstreamIPSafe s) = false
  /\ isUpstreamIPSafe (TrimPrefix s "::ffff:") = (false, "invalid IP address")
  /\ HasPrefix (TrimPrefix s "::ffff:") "::ffff:" = false.
Proof.
  intros H Hto4 Hp. split; [|split].
  - rewrite (prefixed_verdict s ip H Hto4 Hp).
    destruct (_ || _) eqn:Hearly; [|reflexivity].
    rewrite verdict_of_address_allowed. unfold denylisted.
    rewrite Hearly. reflexivity.
  - exact (recursive_call_invalid s ip H Hto4 Hp).
  - destruct (HasPrefix_mapped_inv s Hp) as [r ->]. rewrite TrimPrefix_mapped.
    destruct (HasPrefix r "::ffff:") eqn:Hr; [|reflexivity].
    destruct (HasPrefix_mapped_inv r Hr) as [r' ->].
    (* a second ellipsis: the whole text would not parse *)
    exfalso. clear Hr Hp Hto4. unfold net.ParseIP, netip.ParseAddr in H.
    change (netip.ParseAddr_scan ("::ffff:" +:+ "::ffff:" +:+ r')
              ("::ffff:" +:+ "::ffff:" +:+ r'))
      with (netip.parseIPv6 ("::ffff:" +:+ "::ffff:" +:+ r')) in H.
    unfold netip.parseIPv6 in H.
    destruct (netip.cutByte ("::ffff:" +:+ r') "%") as [[l z]|] eqn:Hcut;
      [rewrite (cutByte_mapped_zone _ l z Hcut) in H
      |rewrite (cutByte_mapped _ Hcut) in H].
    + destruct (isEmpty z); [discriminate|].
      assert (exists l', l = "::ffff:" +:+ l') as [l' ->].
      { destruct (netip.cutByte r' "%") as [[l0 z0]|] eqn:Hc0.
        - rewrite (cutByte_mapped_zone _ l0 z0 Hc0) in Hcut.
          injection Hcut as <- _. eauto.
        - rewrite (cutByte_mapped _ Hc0) in Hcut. discriminate. }
      vm_compute in H. discriminate.
    + vm_compute in H. discriminate.
Qed.

Lemma prefixed_text_denied_witness :
  fst (isUpstreamIPSafe "::ffff:1:2:3") = false
  /\ isUpstreamIPSafe (TrimPrefix "::ffff:1:2:3" "::ffff:") = (false, "invalid IP address")
  /\ HasPrefix (TrimPrefix "::ffff:1:2:3" "::ffff:") "::ffff:" = false.
Proof.
  apply (prefixed_text_denied "::ffff:1:2:3"
           [0; 0; 0; 0; 0; 0; 0; 0; 255; 255; 0; 1; 0; 2; 0; 3]);
    vm_compute; reflexivity.
Defined.

Lemma verdict_of_address_in_reasons (ip : net.IP) :
  In (snd (verdict_of_address ip)) reasons.
Proof.
  unfold verdict_of_address, reasons.
  repeat match goal with
         | |- context [if ?b then _ else _] => destruct b; [cbn; tauto|]
         end.
  cbn; tauto.
Qed.

(** X4.  Whatever the input, the reason the classifier returns is one of ten
    texts; the two reasons about cloud metadata services are not among
    them. *)
Theorem reason_in_reasons (s : string) :
  In (snd (isUpstreamIPSafe s)) reasons.
Proof.
  destruct (net.ParseIP s) as [ip|] eqn:H.
  - destruct (isNil (net.To4 ip) && HasPrefix s "::ffff:") eqn:Hm.
    + apply andb_true_iff in Hm as [Hto4 Hp].
      rewrite (prefixed_verdict s ip H Hto4 Hp).
      destruct (_ || _); [apply verdict_of_address_in_reasons|cbn; tauto].
    + rewrite (isUpstreamIPSafe_by_address s ip H Hm).
      apply verdict_of_address_in_reasons.
  - rewrite (unparsed_denied s H). destruct (String.eqb s ""); cbn; tauto.
Qed.

Lemma Contains_percent_cutByte (s : string) :
  Contains s "%" = true -> exists l z, netip.cutByte s "%" = Some (l, z).
Proof.
  induction s as [|c s IH]; cbn [Contains HasPrefix netip.cutByte]; [discriminate|].
  rewrite andb_true_r. destruct (Ascii.eqb c "%"); [eauto|].
  cbn [orb]. intros H. destruct (IH H) as (l & z & ->). eauto.
Qed.

(** A text with a zone does not parse: [ParseIP] refuses the zone that
    [ParseAddr] accepts. *)
Lemma ParseIP_zone (s : string) :
  Contains s "%" = true -> net.ParseIP s = None.
Proof.
  intros Hc. destruct (Contains_percent_cutByte s Hc) as (l & z & Hcut).
  unfold net.ParseIP, netip.ParseAddr.
  destruct (ParseAddr_scan_cases s s) as [H|[H|H]]; rewrite H; [| |reflexivity].
  - unfold netip.parseIPv4, netip.parseIPv4Fields.
    destruct (netip.parseIPv4Fields_loop s 0 "000" 0 0 0 [0; 0; 0; 0]) eqn:Hf;
      [|reflexivity].
    apply parseIPv4Fields_loop_no_zone in Hf. congruence.
  - unfold netip.parseIPv6. rewrite Hcut.
    destruct z as [|cz z]; [reflexivity|]. cbn [isEmpty].
    destruct (HasPrefix l "::" && isEmpty _); [reflexivity|].
    destruct (netip.parseIPv6_loop _ _ _ _ _) as [[[[i e] ip'] s']|]; [|reflexivity].
    destruct (negb (isEmpty s')); [reflexivity|].
    destruct (i <? 16); [destruct (e <? 0)|destruct (0 <=? e)]; reflexivity.
Qed.

(** X5.  A text that holds a zone separator "%" (as in fe80::1%eth0) is
    denied as an invalid IP address. *)
Theorem zone_denied (s : string) :
  Contains s "%" = true -> isUpstreamIPSafe s = (false, "invalid IP address").
Proof.
  intros Hc. rewrite (unparsed_denied s (ParseIP_zone s Hc)).
  destruct s; [discriminate|reflexivity].
Qed.

Lemma zone_denied_witness :
  isUpstreamIPSafe "2607:f8b0::1%eth0" = (false, "invalid IP address").
Proof. apply (zone_denied "2607:f8b0::1%eth0"). vm_compute. reflexivity. Defined.

(** X6.  Two texts of the same address get the same verdict, reason
    included, unless one of them is a non-IPv4 address written with the
    prefix "::ffff:"; in particular the verdict for an IPv4 or IPv4-mapped
    address does not depend on how the address is written. *)
Theorem same_address_same_verdict (s1 s2 : string) (ip : net.IP) :
  net.ParseIP s1 = Some ip -> net.ParseIP s2 = Some ip ->
  isNil (net.To4 ip) && (HasPrefix s1 "::ffff:" || HasPrefix s2 "::ffff:") = false ->
  isUpstreamIPSafe s1 = isUpstreamIPSafe s2.
Proof.
  intros H1 H2 Hm.
  rewrite (isUpstreamIPSafe_by_address s1 ip H1),
          (isUpstreamIPSafe_by_address s2 ip H2); [reflexivity| |].
  - destruct (isNil (net.To4 ip)); [|reflexivity].
    cbn [andb] in Hm |- *. apply orb_false_iff in Hm as [_ ->]. reflexivity.
  - destruct (isNil (net.To4 ip)); [|reflexivity].
    cbn [andb] in Hm |- *. apply orb_false_iff in Hm as [-> _]. reflexivity.
Qed.

Lemma same_address_same_verdict_witness :
  isUpstreamIPSafe "0:0:0:0:0:FFFF:a00:5" = isUpstreamIPSafe "10.0.0.5".
Proof.
  apply (same_address_same_verdict "0:0:0:0:0:FFFF:a00:5" "10.0.0.5"
           [0; 0; 0; 0; 0; 0; 0; 0; 0; 0; 255; 255; 10; 0; 0; 5]);
    vm_compute; reflexivity.
Defined.

(** Where the spelling matters: the same reserved address is allowed in one
    spelling and denied in the other. *)
Example spelling_matters :
  net.ParseIP "0:0:0:0:ffff:1:2:3" = net.ParseIP "::ffff:1:2:3"
  /\ fst (isUpstreamIPSafe "0:0:0:0:ffff:1:2:3") = true
  /\ fst (isUpstreamIPSafe "::ffff:1:2:3") = false.
Proof. repeat split; vm_compute; reflexivity. Qed.

(** *** The rules as ranges of bytes *)

Lemma uint8_is_byte (x : Z) : is_byte (uint8 x).
Proof. unfold is_byte, uint8. apply Z.mod_pos_bound. lia. Qed.

Lemma parseIPv4Fields_loop_bytes (s : string) :
  forall i prev val pos digLen fields out,
    Forall is_byte fields ->
    netip.parseIPv4Fields_loop s i prev val pos digLen fields = Some out ->
    Forall is_byte out.
Proof.
  induction s as [|c s IH]; intros i prev val pos digLen fields out Hb H; simpl in H.
  - destruct (pos <? 3)%nat; [discriminate|]. injection H as <-.
    apply Forall_insert; [exact Hb|apply uint8_is_byte].
  - destruct (between "0" "9" c).
    + destruct ((digLen =? 1) && (val =? 0)); [discriminate|].
      destruct (255 <? _); [discriminate|]. eauto.
    + destruct (Ascii.eqb c "."); [|discriminate].
      destruct ((i =? 0) || isEmpty s || Ascii.eqb prev "."); [discriminate|].
      destruct (pos =? 3)%nat; [discriminate|].
      eapply IH; [|exact H]. apply Forall_insert; [exact Hb|apply uint8_is_byte].
Qed.

(** Every byte is one of 256 values, so a fact about bytes that computes
    can be settled value by value. *)
Lemma byte_cases (P : Z -> Prop) :
  (forall n : nat, (n < 256)%nat -> P (Z.of_nat n)) -> forall x, is_byte x -> P x.
Proof.
  intros H x Hx. rewrite <- (Z2Nat.id x) by (unfold is_byte in Hx; lia).
  apply H. unfold is_byte in Hx. lia.
Qed.

Lemma forall_below_256 (f : nat -> bool) :
  forallb f (seq 0 256) = true -> forall n, (n < 256)%nat -> f n = true.
Proof.
  intros H n Hn. rewrite forallb_forall in H. apply H. apply in_seq. lia.
Qed.

Lemma mask_multicast (a : Z) :
  is_byte a -> (Z.land a 240 =? 224) = (224 <=? a) && (a <=? 239).
Proof.
  revert a. apply byte_cases. intros n Hn. apply Bool.eqb_prop.
  apply (forall_below_256
           (fun n => Bool.eqb (Z.land (Z.of_nat n) 240 =? 224)
                       ((224 <=? Z.of_nat n) && (Z.of_nat n <=? 239))));
    [vm_compute; reflexivity|exact Hn].
Qed.

Lemma mask_private (b : Z) :
  is_byte b -> (Z.land b 240 =? 16) = (16 <=? b) && (b <=? 31).
Proof.
  revert b. apply byte_cases. intros n Hn. apply Bool.eqb_prop.
  apply (forall_below_256
           (fun n => Bool.eqb (Z.land (Z.of_nat n) 240 =? 16)
                       ((16 <=? Z.of_nat n) && (Z.of_nat n <=? 31))));
    [vm_compute; reflexivity|exact Hn].
Qed.

Lemma mask_unique_local (a : Z) :
  is_byte a -> (Z.land a 254 =? 252) = (a =? 252) || (a =? 253).
Proof.
  revert a. apply byte_cases. intros n Hn. apply Bool.eqb_prop.
  apply (forall_below_256
           (fun n => Bool.eqb (Z.land (Z.of_nat n) 254 =? 252)
                       ((Z.of_nat n =? 252) || (Z.of_nat n =? 253))));
    [vm_compute; reflexivity|exact Hn].
Qed.

Lemma mask_link_local (b : Z) :
  is_byte b -> (Z.land b 192 =? 128) = (128 <=? b) && (b <=? 191).
Proof.
  revert b. apply byte_cases. intros n Hn. apply Bool.eqb_prop.
  apply (forall_below_256
           (fun n => Bool.eqb (Z.land (Z.of_nat n) 192 =? 128)
                       ((128 <=? Z.of_nat n) && (Z.of_nat n <=? 191))));
    [vm_compute; reflexivity|exact Hn].
Qed.

Lemma mask_full (x k : Z) : is_byte x -> is_byte k -> (Z.land k 255 =? Z.land x 255) = (x =? k).
Proof.
  intros Hx Hk. unfold is_byte in *.
  change 255 with (Z.ones 8). rewrite !Z.land_ones by lia.
  change (2 ^ 8) with 256. rewrite !Z.mod_small by lia. apply Z.eqb_sym.
Qed.

Lemma mask_none (x k : Z) : (Z.land k 0 =? Z.land x 0) = true.
Proof. rewrite !Z.land_0_r. reflexivity. Qed.

(** The four networks parse: the error results that the source drops are
    nil. *)
Lemma testNets_parsed :
  testNet1 = {| net.IPNet_IP := Some [192; 0; 2; 0];
                net.IPNet_Mask := Some [255; 255; 255; 0] |}
  /\ testNet2 = {| net.IPNet_IP := Some [198; 51; 100; 0];
                   net.IPNet_Mask := Some [255; 255; 255; 0] |}
  /\ testNet3 = {| net.IPNet_IP := Some [203; 0; 113; 0];
                   net.IPNet_Mask := Some [255; 255; 255; 0] |}
  /\ testNet6 = {| net.IPNet_IP := Some [32; 1; 13; 184; 0; 0; 0; 0; 0; 0; 0; 0; 0; 0; 0; 0];
                   net.IPNet_Mask :=
                     Some [255; 255; 255; 255; 0; 0; 0; 0; 0; 0; 0; 0; 0; 0; 0; 0] |}.
Proof. repeat split; vm_compute; reflexivity. Qed.

Lemma in_documentation_range_IPv4 (a b c d : Z) :
  is_byte a -> is_byte b -> is_byte c -> is_byte d ->
  in_documentation_range (net.IPv4 a b c d)
  = ((a =? 192) && (b =? 0) && (c =? 2))
    || ((a =? 198) && (b =? 51) && (c =? 100))
    || ((a =? 203) && (b =? 0) && (c =? 113)).
Proof.
  intros Ha Hb Hc Hd. unfold in_documentation_range.
  destruct testNets_parsed as (-> & -> & -> & ->).
  unfold net.IPNet_Contains.
  cbn.
  rewrite !mask_none, !andb_true_r, orb_false_r.
  rewrite !mask_full by (assumption || (unfold is_byte; lia)).
  rewrite !andb_assoc. reflexivity.
Qed.

Lemma IsUnspecified_IPv4 (a b c d : Z) :
  net.IsUnspecified (net.IPv4 a b c d) = (a =? 0) && (b =? 0) && (c =? 0) && (d =? 0).
Proof.
  unfold net.IsUnspecified, net.Equal, net.bytesEqual. cbn [length Nat.eqb net.IPv4 app
    netip.v4InV6Prefix net.IPv4zero net.IPv6unspecified].
  rewrite (bool_decide_false (_ = net.IPv6unspecified))
    by (unfold net.IPv6unspecified; discriminate).
  rewrite orb_false_r.
  destruct (Z.eqb_spec a 0) as [->|Ha]; [|apply bool_decide_false; congruence].
  destruct (Z.eqb_spec b 0) as [->|Hb]; [|apply bool_decide_false; congruence].
  destruct (Z.eqb_spec c 0) as [->|Hc]; [|apply bool_decide_false; congruence].
  destruct (Z.eqb_spec d 0) as [->|Hd]; [|apply bool_decide_false; congruence].
  apply bool_decide_true. reflexivity.
Qed.

(** The checks on an IPv4 address are the ranges of [IPv4_rule]. *)
Lemma verdict_of_address_IPv4 (a b c d : Z) :
  is_byte a -> is_byte b -> is_byte c -> is_byte d ->
  verdict_of_address (net.IPv4 a b c d) = IPv4_rule a b c d.
Proof.
  intros Ha Hb Hc Hd. unfold verdict_of_address, IPv4_rule.
  rewrite IsUnspecified_IPv4, in_documentation_range_IPv4 by assumption.
  change (net.IsLoopback (net.IPv4 a b c d)) with (a =? 127).
  change (net.IsLinkLocalUnicast (net.IPv4 a b c d)) with ((a =? 169) && (b =? 254)).
  change (net.IsMulticast (net.IPv4 a b c d)) with (Z.land a 240 =? 224).
  change (net.IsPrivate (net.IPv4 a b c d))
    with ((a =? 10) || ((a =? 172) && (Z.land b 240 =? 16)) || ((a =? 192) && (b =? 168))).
  rewrite (mask_multicast a Ha), (mask_private b Hb), !andb_assoc. reflexivity.
Qed.

(** X7.  For an IPv4 literal a.b.c.d, and for its IPv4-mapped form, the
    verdict is the one of the ranges 127.0.0.0/8, 0.0.0.0, 169.254.0.0/16,
    224.0.0.0/4, 10.0.0.0/8, 172.16.0.0/12, 192.168.0.0/16, 192.0.2.0/24,
    198.51.100.0/24 and 203.0.113.0/24, taken in this order; every other
    IPv4 address is allowed. *)
Theorem IPv4_verdict_by_range (s : string) (a b c d : Z) :
  netip.parseIPv4 s = Some (netip.AddrFrom4 [a; b; c; d]) ->
  isUpstreamIPSafe s = IPv4_rule a b c d
  /\ isUpstreamIPSafe ("::ffff:" +:+ s) = IPv4_rule a b c d.
Proof.
  unfold netip.parseIPv4. intros H.
  destruct (netip.parseIPv4Fields s [0; 0; 0; 0]) as [fields|] eqn:Hf; [|discriminate].
  injection H as ->.
  assert (Forall is_byte [a; b; c; d]) as Hbytes.
  { eapply parseIPv4Fields_loop_bytes; [|exact Hf].
    repeat constructor; unfold is_byte; lia. }
  rewrite (isUpstreamIPSafe_IPv4_mapped s _ Hf).
  rewrite (isUpstreamIPSafe_by_address _ _ (ParseIP_IPv4 s _ Hf)) by reflexivity.
  inversion Hbytes as [|? ? Ha Hbytes1]; subst.
  inversion Hbytes1 as [|? ? Hb Hbytes2]; subst.
  inversion Hbytes2 as [|? ? Hc Hbytes3]; subst.
  inversion Hbytes3 as [|? ? Hd _]; subst.
  split; apply (verdict_of_address_IPv4 a b c d Ha Hb Hc Hd).
Qed.

Lemma IPv4_verdict_by_range_witness :
  isUpstreamIPSafe "172.31.255.1" = IPv4_rule 172 31 255 1
  /\ isUpstreamIPSafe "::ffff:172.31.255.1" = IPv4_rule 172 31 255 1.
Proof. apply (IPv4_verdict_by_range "172.31.255.1"). vm_compute. reflexivity. Defined.

Lemma lookup_total_is_byte (l : list Z) (j : nat) :
  Forall is_byte l -> is_byte (l !!! j).
Proof.
  intros Hl. revert j. induction Hl as [|x l Hx _ IH]; intros j.
  - destruct j; vm_compute; (split; [discriminate|reflexivity]).
  - destruct j; [exact Hx|apply IH].
Qed.

Lemma shiftTail_bytes (ip : list Z) (i e n : Z) :
  Forall is_byte ip -> Forall is_byte (netip.shiftTail ip i e n).
Proof.
  unfold netip.shiftTail. generalize (rev (seq (Z.to_nat e) (Z.to_nat (i - e)))).
  intros js. revert ip. induction js as [|j js IH]; intros ip Hip; cbn [foldl];
    [exact Hip|].
  apply IH. apply Forall_insert; [exact Hip|apply lookup_total_is_byte; exact Hip].
Qed.

Lemma clear_bytes (ip : list Z) (from to : Z) :
  Forall is_byte ip -> Forall is_byte (netip.clear ip from to).
Proof.
  unfold netip.clear. generalize (seq (Z.to_nat from) (Z.to_nat (to - from))).
  intros ks. revert ip. induction ks as [|k ks IH]; intros ip Hip; cbn [foldl];
    [exact Hip|].
  apply IH. apply Forall_insert; [exact Hip|unfold is_byte; lia].
Qed.

Lemma parseIPv6_loop_bytes (turns : nat) :
  forall i e ip s i' e' ip' s',
    Forall is_byte ip ->
    netip.parseIPv6_loop turns i e ip s = Some (i', e', ip', s') ->
    Forall is_byte ip'.
Proof.
  induction turns as [|turns IH]; intros i e ip s i' e' ip' s' Hip H;
    cbn [netip.parseIPv6_loop] in H;
    (destruct (16 <=? i) eqn:Hlim; [injection H as <- <- <- <-; auto|]);
    [discriminate|].
  unfold netip.parseIPv6_turn in H.
  destruct (netip.hexGroup_loop s 0 0) as [[[off acc] rest]|]; [|discriminate].
  destruct (off =? 0); [discriminate|].
  destruct (HasPrefix rest ".").
  - destruct ((e <? 0) && negb (i =? 12)); [discriminate|].
    destruct (16 <? i + 4); [discriminate|].
    destruct (netip.parseIPv4Fields _ _) as [fields|] eqn:Hf; [|discriminate].
    injection H as <- <- <- <-. unfold netip.write4.
    apply Forall_app. split; [apply Forall_take; exact Hip|].
    apply Forall_app. split; [|apply Forall_drop; exact Hip].
    eapply parseIPv4Fields_loop_bytes; [|exact Hf].
    apply Forall_take, Forall_drop. exact Hip.
  - set (ip2 := <[Z.to_nat (i + 1):=_]> (<[Z.to_nat i:=_]> ip)) in H.
    assert (Forall is_byte ip2) as Hip2
      by (unfold ip2; repeat apply Forall_insert; auto using uint8_is_byte).
    destruct rest as [|c s1]; [injection H as <- <- <- <-; auto|].
    destruct (negb (Ascii.eqb c ":")); [discriminate|].
    destruct s1 as [|c1 s2]; [discriminate|].
    destruct (Ascii.eqb c1 ":").
    + destruct (0 <=? e); [discriminate|].
      destruct (isEmpty s2); [injection H as <- <- <- <-; auto|]. eauto.
    + eauto.
Qed.

Lemma zeros16_bytes : Forall is_byte netip.zeros16.
Proof. repeat constructor; unfold is_byte; lia. Qed.

(** A parsed address is made of bytes. *)
Lemma ParseIP_bytes (s : string) (ip : net.IP) :
  net.ParseIP s = Some ip -> Forall is_byte ip.
Proof.
  unfold net.ParseIP, netip.ParseAddr. intros H.
  destruct (ParseAddr_scan_cases s s) as [Hc|[Hc|Hc]]; rewrite Hc in H;
    [| |discriminate].
  - unfold netip.parseIPv4 in H.
    destruct (netip.parseIPv4Fields s [0; 0; 0; 0]) as [fields|] eqn:Hf; [|discriminate].
    injection H as <-.
    do 12 (apply Forall_cons; split; [unfold is_byte; lia|]).
    eapply parseIPv4Fields_loop_bytes; [|exact Hf].
    repeat constructor; unfold is_byte; lia.
  - unfold netip.parseIPv6 in H.
    destruct (match netip.cutByte s "%" with
              | Some (s0, zone0) => if isEmpty zone0 then None else Some (s0, zone0)
              | None => Some (s, "")
              end) as [[s0 zone0]|]; [|discriminate].
    destruct (HasPrefix s0 "::" && isEmpty _).
    { cbn [netip.Zone netip.As16] in H. destruct (isEmpty zone0); [|discriminate].
      injection H as <-. apply zeros16_bytes. }
    destruct (netip.parseIPv6_loop _ _ _ _ _) as [[[[i e] ip'] s']|] eqn:Hloop;
      [|discriminate].
    apply parseIPv6_loop_bytes in Hloop; [|apply zeros16_bytes].
    destruct (negb (isEmpty s')); [discriminate|].
    destruct (i <? 16).
    + destruct (e <? 0); [discriminate|]. cbn [netip.Zone netip.As16] in H.
      destruct (isEmpty zone0); [|discriminate]. injection H as <-.
      apply clear_bytes, shiftTail_bytes. exact Hloop.
    + destruct (0 <=? e); [discriminate|]. cbn [netip.Zone netip.As16] in H.
      destruct (isEmpty zone0); [|discriminate]. injection H as <-. exact Hloop.
Qed.

(** The checks on an address that is not IPv4 are the ranges of
    [IPv6_rule]. *)
Lemma verdict_of_address_IPv6 (ip : net.IP) :
  length ip = 16%nat -> Forall is_byte ip -> isNil (net.To4 ip) = true ->
  verdict_of_address ip = IPv6_rule ip.
Proof.
  intros Hlen Hbytes Hto4.
  assert (is_byte (ip !!! 0%nat) /\ is_byte (ip !!! 1%nat) /\ is_byte (ip !!! 2%nat)
          /\ is_byte (ip !!! 3%nat)) as (H0 & H1 & H2 & H3)
    by (repeat split; apply lookup_total_is_byte; exact Hbytes).
  assert (ip <> net.IPv4zero) as Hnz by (intros ->; discriminate Hto4).
  unfold verdict_of_address, IPv6_rule.
  assert (net.IsLoopback ip = bool_decide (ip = net.IPv6loopback)) as ->.
  { unfold net.IsLoopback. destruct (net.To4 ip); [discriminate Hto4|].
    unfold net.Equal. rewrite Hlen. reflexivity. }
  assert (net.IsUnspecified ip = bool_decide (ip = net.IPv6unspecified)) as ->.
  { unfold net.IsUnspecified, net.Equal. rewrite Hlen. cbn [length Nat.eqb].
    unfold net.bytesEqual. rewrite (bool_decide_false (ip = net.IPv4zero)) by exact Hnz.
    reflexivity. }
  assert (net.IsLinkLocalUnicast ip
          = (ip !!! 0%nat =? 254) && (128 <=? ip !!! 1%nat) && (ip !!! 1%nat <=? 191)) as ->.
  { unfold net.IsLinkLocalUnicast. destruct (net.To4 ip); [discriminate Hto4|].
    rewrite Hlen, (mask_link_local _ H1), andb_assoc. reflexivity. }
  assert (net.IsMulticast ip = (ip !!! 0%nat =? 255)) as ->.
  { unfold net.IsMulticast. destruct (net.To4 ip); [discriminate Hto4|].
    rewrite Hlen. reflexivity. }
  assert (net.IsPrivate ip = (ip !!! 0%nat =? 252) || (ip !!! 0%nat =? 253)) as ->.
  { unfold net.IsPrivate. destruct (net.To4 ip); [discriminate Hto4|].
    rewrite Hlen, (mask_unique_local _ H0). reflexivity. }
  assert (in_documentation_range ip
          = (ip !!! 0%nat =? 32) && (ip !!! 1%nat =? 1)
            && (ip !!! 2%nat =? 13) && (ip !!! 3%nat =? 184)) as ->.
  { unfold in_documentation_range.
    destruct testNets_parsed as (-> & -> & -> & ->).
    unfold net.IPNet_Contains.
    destruct (net.To4 ip); [discriminate Hto4|].
    cbn [net.networkNumberAndMask net.IPNet_IP net.IPNet_Mask].
    cbn -[Z.land lookup_total].
    rewrite Hlen. cbn -[Z.land].
    rewrite !mask_none, !andb_true_r.
    rewrite !mask_full by (assumption || (unfold is_byte; lia)).
    rewrite !andb_assoc. reflexivity. }
  reflexivity.
Qed.

(** X8.  For a text that parses to an address that is not IPv4 and is not
    written with the prefix "::ffff:", the verdict is the one of the ranges
    ::1, ::, fe80::/10, ff00::/8, fc00::/7 and 2001:db8::/32, taken in this
    order; every other such address is allowed. *)
Theorem IPv6_verdict_by_range (s : string) (ip : net.IP) :
  net.ParseIP s = Some ip -> isNil (net.To4 ip) = true ->
  HasPrefix s "::ffff:" = false ->
  isUpstreamIPSafe s = IPv6_rule ip.
Proof.
  intros H Hto4 Hp.
  rewrite (isUpstreamIPSafe_by_address s ip H) by (rewrite Hp; apply andb_false_r).
  apply verdict_of_address_IPv6;
    [exact (ParseIP_length s ip H)|exact (ParseIP_bytes s ip H)|exact Hto4].
Qed.

Lemma IPv6_verdict_by_range_witness :
  isUpstreamIPSafe "febf::1"
  = IPv6_rule [254; 191; 0; 0; 0; 0; 0; 0; 0; 0; 0; 0; 0; 0; 0; 1].
Proof.
  apply (IPv6_verdict_by_range "febf::1"); vm_compute; reflexivity.
Defined.

(** ** Further properties of the attribute extractor *)

(** The first field of a split on [":"] is the text before the first colon,
    or the whole text when it has none. *)
Lemma Split_loop_first (s : string) :
  forall cur,
    exists pre rest fields,
      Split_loop s ":" 0 cur = (string_of_list_ascii (rev cur) +:+ pre) :: fields
      /\ s = pre +:+ rest
      /\ Contains pre ":" = false
      /\ (rest = "" \/ HasPrefix rest ":" = true).
Proof.
  induction s as [|c s IH]; intros cur.
  - exists "", "", []. cbn [Split_loop]. rewrite string_append_nil_r. auto.
  - cbn [Split_loop HasPrefix]. rewrite andb_true_r.
    destruct (Ascii.eqb c ":") eqn:Hc.
    + apply Ascii.eqb_eq in Hc as ->.
      exists "", (String ":" s). eexists. rewrite string_append_nil_r.
      repeat split; auto.
    + destruct (IH (c :: cur)) as (pre & rest & fields & -> & -> & Hpre & Hrest).
      exists (String c pre), rest, fields. cbn [rev].
      rewrite string_of_list_ascii_snoc. repeat split; [|exact Hrest].
      cbn [Contains HasPrefix]. rewrite Hc, Hpre. reflexivity.
Qed.

Lemma Split_first_field (value : string) :
  exists rest,
    value = (Split value ":" !!! 0%nat) +:+ rest
    /\ Contains (Split value ":" !!! 0%nat) ":" = false
    /\ (rest = "" \/ HasPrefix rest ":" = true).
Proof.
  unfold Split. cbn [isEmpty].
  destruct (Split_loop_first value []) as (pre & rest & fields & -> & Hv & Hpre & Hrest).
  exists rest. cbn [rev string_of_list_ascii].
  change ("" +:+ pre) with pre. auto.
Qed.

(** What the extractor returns is the empty text or the first field of a
    string stored under the namespace and the field. *)
Lemma extractUpstreamIP_cases (attributes : option (gmap string (option structpb.Struct))) :
  extractUpstreamIP attributes = ""
  \/ exists attrs filterAttributes fields value,
       attributes = Some attrs
       /\ attrs !! "envoy.filters.http.ext_proc" = Some (Some filterAttributes)
       /\ structpb.Fields filterAttributes = Some fields
       /\ fields !! "upstream.address" = Some (Some (structpb.StringValue value))
       /\ value <> ""
       /\ extractUpstreamIP attributes = Split value ":" !!! 0%nat.
Proof.
  unfold extractUpstreamIP, index.
  destruct attributes as [attrs|]; [|auto].
  destruct (attrs !! "envoy.filters.http.ext_proc") as [[filterAttributes|]|] eqn:Hns;
    [|auto|auto].
  destruct (structpb.Fields filterAttributes) as [fields|] eqn:Hfields; [|auto].
  destruct (fields !! "upstream.address") as [[upstream|]|] eqn:Hfield; [|auto|auto].
  destruct upstream as [| |value| | |]; cbn [structpb.GetStringValue]; auto.
  destruct (String.eqb_spec value "") as [->|Hne]; cbn [negb]; [auto|].
  right. exists attrs, filterAttributes, fields, value. auto 10.
Qed.

(** A text without a colon is parsed as IPv4 or not at all. *)
Lemma ParseAddr_scan_no_colon (s rest : string) :
  Contains rest ":" = false ->
  netip.ParseAddr_scan s rest = netip.parseIPv4 s \/ netip.ParseAddr_scan s rest = None.
Proof.
  induction rest as [|c rest IH]; intros Hc; cbn [netip.ParseAddr_scan]; [auto|].
  apply Contains_colon_cons in Hc as [Hc Hrest].
  destruct (Ascii.eqb c "."); [auto|]. rewrite Hc.
  destruct (Ascii.eqb c "%"); auto.
Qed.

Lemma extractUpstreamIP_colon_free
    (attributes : option (gmap string (option structpb.Struct))) :
  Contains (extractUpstreamIP attributes) ":" = false.
Proof.
  destruct (extractUpstreamIP_cases attributes)
    as [->|(attrs & fa & fields & value & _ & _ & _ & _ & _ & ->)]; [reflexivity|].
  destruct (Split_first_field value) as (rest & _ & Hc & _). exact Hc.
Qed.

(** X9.  Whatever the attributes, the extracted text holds no colon, so it
    is never an IPv6 literal nor an address with its port: if it parses at
    all, it is an IPv4 literal. *)
Theorem extractUpstreamIP_no_colon
    (attributes : option (gmap string (option structpb.Struct))) :
  Contains (extractUpstreamIP attributes) ":" = false
  /\ (forall ip,
        net.ParseIP (extractUpstreamIP attributes) = Some ip ->
        IPv4_literal (extractUpstreamIP attributes) = true
        /\ isNil (net.To4 ip) = false).
Proof.
  pose proof (extractUpstreamIP_colon_free attributes) as Hc.
  split; [exact Hc|]. intros ip H.
  unfold net.ParseIP, netip.ParseAddr in H. unfold IPv4_literal.
  destruct (ParseAddr_scan_no_colon (extractUpstreamIP attributes) _ Hc) as [Hs|Hs];
    rewrite Hs in H; [|discriminate].
  unfold netip.parseIPv4 in *.
  destruct (netip.parseIPv4Fields _ [0; 0; 0; 0]) as [fields|] eqn:Hf; [|discriminate].
  split; [reflexivity|]. injection H as <-.
  pose proof (parseIPv4Fields_loop_length _ _ _ _ _ _ _ _ Hf) as Hlen.
  four_elements Hlen fields. reflexivity.
Qed.

(** X10.  For a string stored as the upstream address the extractor returns
    the text before the first colon, and the whole string when it has no
    colon: the result holds no colon, and the string is the result followed
    by nothing or by a text that starts with a colon. *)
Theorem extractUpstreamIP_first_field (value : string) :
  exists rest,
    value = extractUpstreamIP (upstream_attributes (structpb.StringValue value)) +:+ rest
    /\ Contains (extractUpstreamIP (upstream_attributes (structpb.StringValue value))) ":"
       = false
    /\ (rest = "" \/ HasPrefix rest ":" = true).
Proof.
  rewrite upstream_attributes_extract. cbn [structpb.GetStringValue]. cbv zeta.
  destruct (String.eqb_spec value "") as [->|Hne]; cbn [negb].
  - exists "". auto.
  - destruct (Split_first_field value) as (rest & Hv & Hc & Hrest). eauto.
Qed.

(** X11.  A non-empty result only comes from a non-empty string stored
    under the namespace "envoy.filters.http.ext_proc" and the field
    "upstream.address": with the bundle, the namespace, the field map or the
    field missing or nil, or with a value of another kind or an empty
    string, the result is the empty text. *)
Theorem extractUpstreamIP_nonempty_inv
    (attributes : option (gmap string (option structpb.Struct))) :
  extractUpstreamIP attributes <> "" ->
  exists attrs filterAttributes fields value,
    attributes = Some attrs
    /\ attrs !! "envoy.filters.http.ext_proc" = Some (Some filterAttributes)
    /\ structpb.Fields filterAttributes = Some fields
    /\ fields !! "upstream.address" = Some (Some (structpb.StringValue value))
    /\ value <> "".
Proof.
  intros Hne.
  destruct (extractUpstreamIP_cases attributes)
    as [He|(attrs & fa & fields & value & H1 & H2 & H3 & H4 & H5 & _)];
    [contradiction|].
  exists attrs, fa, fields, value. auto.
Qed.

Lemma extractUpstreamIP_nonempty_inv_witness :
  exists attrs filterAttributes fields value,
    upstream_attributes (structpb.StringValue "10.0.0.1:80") = Some attrs
    /\ attrs !! "envoy.filters.http.ext_proc" = Some (Some filterAttributes)
    /\ structpb.Fields filterAttributes = Some fields
    /\ fields !! "upstream.address" = Some (Some (structpb.StringValue value))
    /\ value <> "".
Proof.
  apply (extractUpstreamIP_nonempty_inv
           (upstream_attributes (structpb.StringValue "10.0.0.1:80"))).
  rewrite upstream_attributes_extract. vm_compute. discriminate.
Defined.

(** X12.  The extractor reads one field of one namespace: setting any other
    namespace of the bundle, or any other field of the namespace, does not
    change its result. *)
Theorem extractUpstreamIP_frame (attrs : gmap string (option structpb.Struct))
    (fields : gmap string (option structpb.Value))
    (namespace field : string) (other : option structpb.Struct)
    (value : option structpb.Value) :
  namespace <> "envoy.filters.http.ext_proc" -> field <> "upstream.address" ->
  extractUpstreamIP (Some (<[namespace := other]> attrs))
  = extractUpstreamIP (Some attrs)
  /\ extractUpstreamIP
       (Some (<["envoy.filters.http.ext_proc" :=
                  Some (structpb.Build_Struct (Some (<[field := value]> fields)))]> attrs))
     = extractUpstreamIP
         (Some (<["envoy.filters.http.ext_proc" :=
                    Some (structpb.Build_Struct (Some fields))]> attrs)).
Proof.
  intros Hns Hfield. unfold extractUpstreamIP, index. split.
  - rewrite lookup_insert_ne by exact Hns. reflexivity.
  - rewrite !lookup_insert_eq. cbn [structpb.Fields].
    rewrite lookup_insert_ne by exact Hfield. reflexivity.
Qed.

Lemma extractUpstreamIP_frame_witness :
  extractUpstreamIP
    (Some (<["envoy.filters.http.router" := None]>
             {[ "envoy.filters.http.ext_proc" :=
                  Some (structpb.Build_Struct
                          (Some {[ "upstream.address" :=
                                     Some (structpb.StringValue "10.0.0.1:80") ]})) ]}))
  = extractUpstreamIP
      (Some {[ "envoy.filters.http.ext_proc" :=
                 Some (structpb.Build_Struct
                         (Some {[ "upstream.address" :=
                                    Some (structpb.StringValue "10.0.0.1:80") ]})) ]}).
Proof.
  apply (extractUpstreamIP_frame _ ∅ "envoy.filters.http.router" "upstream.port" None None);
    discriminate.
Defined.

(** ** Further properties of the stream session *)

Lemma handle_wire (req : ProcessingRequest) (sendErr : option error) :
  wire (handle req sendErr) = [EvRecv req; EvSend (reply req)]
  /\ sent (handle req sendErr) = [reply req].
Proof.
  unfold reply. destruct (header_phase req) eqn:Hh.
  - apply handle_header_phase. exact Hh.
  - apply handle_other_phase. exact Hh.
Qed.

Lemma Process_sent_replies (srv : list turn) :
  sent (fst (Process srv)) = reply <$> received srv.
Proof.
  induction srv as [|t srv IH]; [reflexivity|].
  destruct t as [ctxErr|req sendErr|err]; cbn [Process received].
  - reflexivity.
  - destruct (Process srv) as [events result]. cbn [fst] in *.
    rewrite sent_app, IH. destruct (handle_wire req sendErr) as [_ ->]. reflexivity.
  - destruct (is_EOF err); reflexivity.
Qed.

Lemma In_EvSend_sent (events : list event) (resp : option ProcessingResponse) :
  In (EvSend resp) events <-> In resp (sent events).
Proof.
  induction events as [|ev events IH]; [reflexivity|].
  destruct ev as [req|resp'|line]; cbn [sent In]; rewrite IH.
  - split; [intros [H|H]; [discriminate|exact H]|auto].
  - split; (intros [H|H]; [left; congruence|right; exact H]).
  - split; [intros [H|H]; [discriminate|exact H]|auto].
Qed.

(** X13.  On any stream, whatever the phases of the messages, the results of
    the sends and the way the stream ends, the session receives and sends in
    strict alternation: each message received is followed, before the next
    receive, by one send, of the response for a header-phase request and of
    a nil response for any other request; nothing else is sent. *)
Theorem Process_wire_trace (srv : list turn) :
  wire (fst (Process srv))
  = flat_map (fun req => [EvRecv req; EvSend (reply req)]) (received srv)
  /\ sent (fst (Process srv)) = reply <$> received srv.
Proof.
  split; [|apply Process_sent_replies].
  induction srv as [|t srv IH]; [reflexivity|].
  destruct t as [ctxErr|req sendErr|err]; cbn [Process received].
  - reflexivity.
  - destruct (Process srv) as [events result]. cbn [fst] in *.
    rewrite wire_app, IH. destruct (handle_wire req sendErr) as [-> _]. reflexivity.
  - destruct (is_EOF err); reflexivity.
Qed.

(** X14.  When [srv.Recv] fails, the session ends at once, with nothing
    sent for the failed receive: on end of stream (io.EOF) it returns nil,
    on any other error a status error with code Unknown whose text is
    "cannot receive stream request: " followed by the text of the error. *)
Theorem Process_recv_error (msgs : list (ProcessingRequest * option error))
    (err : error) (rest : list turn) :
  Process (arrivals msgs ++ RecvErr err :: rest)
  = (fst (Process (arrivals msgs)),
     Returned (if is_EOF err then None
               else Some (status_Error codes_Unknown
                            ("cannot receive stream request: " +:+ Error err)))).
Proof.
  rewrite Process_arrivals_app, Process_arrivals. cbn [Process fst snd].
  destruct (is_EOF err); cbn [fst snd]; rewrite app_nil_r; reflexivity.
Qed.

Lemma logged_send_errors_app (l1 l2 : list event) :
  logged_send_errors (l1 ++ l2) = logged_send_errors l1 ++ logged_send_errors l2.
Proof.
  induction l1 as [|ev l1 IH]; [reflexivity|].
  destruct ev as [| |[]]; cbn [app logged_send_errors]; rewrite IH; reflexivity.
Qed.

Lemma handle_logged_send_errors (req : ProcessingRequest) (sendErr : option error) :
  logged_send_errors (handle req sendErr)
  = match sendErr with Some err => [err] | None => [] end.
Proof.
  unfold handle, decide, respond.
  destruct (negb (String.eqb (extractUpstreamIP (Attributes req)) ""));
    [destruct (isUpstreamIPSafe _) as [isSafe reason]|];
    destruct (Request req) as [[]|]; try destruct (negb _);
    destruct sendErr; reflexivity.
Qed.

(** X15.  A failed send does not end the session: each send error is
    logged once, in order, and the session goes on to the next receive. *)
Theorem Process_send_errors_logged (srv : list turn) :
  logged_send_errors (fst (Process srv)) = send_errors srv
  /\ length (sent (fst (Process srv))) = length (received srv).
Proof.
  split.
  - induction srv as [|t srv IH]; [reflexivity|].
    destruct t as [ctxErr|req sendErr|err]; cbn [Process send_errors].
    + reflexivity.
    + destruct (Process srv) as [events result]. cbn [fst] in *.
      rewrite logged_send_errors_app, handle_logged_send_errors, IH.
      destruct sendErr; reflexivity.
    + destruct (is_EOF err); reflexivity.
  - rewrite Process_sent_replies. apply length_fmap.
Qed.







(** X19.  On any stream, every immediate response sent is the deny response
    of a header-phase request that was received, and its reason, which is
    both its body and its metadata field "reason", is not empty: no request
    is blocked without an explanation. *)
Theorem deny_always_explained (srv : list turn) (resp : ProcessingResponse) :
  In (EvSend (Some resp)) (fst (Process srv)) ->
  is_ImmediateResponse resp = true ->
  exists req reason,
    In req (received srv) /\ header_phase req = true
    /\ fst (isUpstreamIPSafe (extractUpstreamIP req.(Attributes))) = false
    /\ reason = snd (session_verdict (extractUpstreamIP req.(Attributes)))
    /\ reason <> ""
    /\ resp = denyResponse reason
    /\ metadata_field resp "reason" = Some (structpb.StringValue reason).
Proof.
  intros Hin Himm.
  apply In_EvSend_sent in Hin. rewrite Process_sent_replies in Hin.
  apply in_map_iff in Hin as (req & Hreply & Hreq).
  unfold reply in Hreply. destruct (header_phase req) eqn:Hh; [|discriminate].
  injection Hreply as Hresp. unfold response_to in Hresp.
  destruct (fst (isUpstreamIPSafe (extractUpstreamIP (Attributes req)))) eqn:Hdeny;
    [subst resp; discriminate Himm|].
  exists req, (snd (session_verdict (extractUpstreamIP (Attributes req)))).
  repeat split; auto.
  - unfold session_verdict.
    destruct (String.eqb (extractUpstreamIP (Attributes req)) ""); [discriminate|].
    destruct (isUpstreamIPSafe_reason (extractUpstreamIP (Attributes req)))
      as [[_ Hr]|Hallow]; [exact Hr|].
    rewrite Hallow in Hdeny. discriminate.
  - subst resp. apply denyResponse_shape.
Qed.

Lemma deny_always_explained_witness :
  exists req reason,
    In req (received [RecvMsg (headers_request "192.168.1.1:80") None])
    /\ header_phase req = true
    /\ fst (isUpstreamIPSafe (extractUpstreamIP req.(Attributes))) = false
    /\ reason = snd (session_verdict (extractUpstreamIP req.(Attributes)))
    /\ reason <> ""
    /\ denyResponse "private network address is blocked (RFC1918)" = denyResponse reason
    /\ metadata_field (denyResponse "private network address is blocked (RFC1918)") "reason"
       = Some (structpb.StringValue reason).
Proof.
  apply (deny_always_explained [RecvMsg (headers_request "192.168.1.1:80") None]
           (denyResponse "private network address is blocked (RFC1918)"));
    [|reflexivity].
  cbn [Process fst]. rewrite app_nil_r.
  assert (sent (handle (headers_request "192.168.1.1:80") None)
          = [Some (denyResponse "private network address is blocked (RFC1918)")]) as Hs.
  { destruct (handle_wire (headers_request "192.168.1.1:80") None) as [_ ->].
    unfold reply, response_to, session_verdict, headers_request.
    cbn [header_phase Request Attributes].
    rewrite upstream_attributes_extract. vm_compute. reflexivity. }
  apply In_EvSend_sent. rewrite Hs. left. reflexivity.
Defined.
